(** * The ingestion and metric-evaluation core, embedded in Rocq

    The development follows the Python sources:

    - [src/url_class.py]: [parse_huggingface_url], [parse_dataset_url],
      [parse_project_file] (manifest parser and URL classifier);
    - [src/metrics/calculate_license_score.py]: the tiered license metric;
    - [run.py]: the input record handed to the metrics and the loop over the
      project groups;
    - [get_model_metrics.py]: size, README path and license of a model;
    - [src/classes/llm_child_api.py]: [GenAiChatApi.get_chat_completion].

    Python [str] values are Rocq strings (sequences of code points below 256;
    the manifest is opened with [encoding="ASCII"], so every link read from
    it is ASCII).  Exceptions are values of [exn]; a function that can raise
    returns a [result]. *)

From Stdlib Require Import ZArith NArith QArith Ascii String List Lia.
From stdpp Require Import base option list gmap strings.

Open Scope string_scope.

(** ** Exceptions and the error monad *)

Inductive exn : Type :=
| ValueError (msg : string)
| UnicodeDecodeError (msg : string)
| FileNotFoundError (filename : string)
| BrokenPipeError (msg : string)
| KeyboardInterrupt.

(** [except Exception] catches every class above but [KeyboardInterrupt],
    which derives from [BaseException] only. *)
Definition is_Exception (e : exn) : bool :=
  match e with
  | KeyboardInterrupt => false
  | _ => true
  end.

Inductive result (A : Type) : Type :=
| Ok (a : A)
| Raise (e : exn).

Arguments Ok {A} a.
Arguments Raise {A} e.

Definition bind {A B : Type} (m : result A) (k : A -> result B) : result B :=
  match m with
  | Ok a => k a
  | Raise e => Raise e
  end.

Notation "'let*' x := m 'in' k" := (bind m (fun x => k))
  (at level 10, x name, m at level 100, k at level 200).
Notation "'let*' ' p := m 'in' k" :=
  (bind m (fun x => match x with p => k end))
  (at level 10, p pattern, m at level 100, k at level 200).

Definition returns {A : Type} (m : result A) : Prop := exists a, m = Ok a.
Definition raises {A : Type} (m : result A) : Prop := exists e, m = Raise e.

(** ** Python string operations used by the sources *)

Module PyStr.

Definition code (c : ascii) : N := N_of_ascii c.

Definition between (lo hi : N) (c : ascii) : bool :=
  ((lo <=? code c) && (code c <=? hi))%N.

(** [str.isspace] on code points below 256. *)
Definition isspace (c : ascii) : bool :=
  between 9 13 c || between 28 32 c || (code c =? 133)%N || (code c =? 160)%N.

Definition isupper (c : ascii) : bool :=
  between 65 90 c || (between 192 222 c && negb (code c =? 215)%N).

Definition lower_char (c : ascii) : ascii :=
  if isupper c then ascii_of_N (code c + 32) else c.

Fixpoint lower (s : string) : string :=
  match s with
  | EmptyString => EmptyString
  | String c s' => String (lower_char c) (lower s')
  end.

Definition nonempty (s : string) : bool :=
  match s with
  | EmptyString => false
  | String _ _ => true
  end.

Fixpoint mem (c : ascii) (chars : string) : bool :=
  match chars with
  | EmptyString => false
  | String d chars' => Ascii.eqb c d || mem c chars'
  end.

Fixpoint lstrip_with (p : ascii -> bool) (s : string) : string :=
  match s with
  | EmptyString => EmptyString
  | String c s' => if p c then lstrip_with p s' else s
  end.

Fixpoint rstrip_with (p : ascii -> bool) (s : string) : string :=
  match s with
  | EmptyString => EmptyString
  | String c s' =>
      let r := rstrip_with p s' in
      if negb (nonempty r) && p c then EmptyString else String c r
  end.

Definition strip_with (p : ascii -> bool) (s : string) : string :=
  rstrip_with p (lstrip_with p s).

(** [s.strip()] *)
Definition strip (s : string) : string := strip_with isspace s.

(** [s.strip(chars)] *)
Definition strip_chars (chars s : string) : string :=
  strip_with (fun c => mem c chars) s.

(** [s.split(sep)] for a one-character separator. *)
Fixpoint split (sep : ascii) (s : string) : list string :=
  match s with
  | EmptyString => [EmptyString]
  | String c s' =>
      if Ascii.eqb c sep then EmptyString :: split sep s'
      else match split sep s' with
           | x :: xs => String c x :: xs
           | [] => [String c EmptyString]
           end
  end.

(** [needle in hay] *)
Fixpoint contains (needle hay : string) : bool :=
  String.prefix needle hay ||
  match hay with
  | EmptyString => false
  | String _ hay' => contains needle hay'
  end.

(** [s.partition(sep)] for a one-character separator: the text before the
    first [sep] and the text after it, when there is one. *)
Fixpoint partition (sep : ascii) (s : string) : option (string * string) :=
  match s with
  | EmptyString => None
  | String c s' =>
      if Ascii.eqb c sep then Some (EmptyString, s')
      else match partition sep s' with
           | Some (a, b) => Some (String c a, b)
           | None => None
           end
  end.

(** The longest prefix whose characters satisfy [p], and the rest. *)
Fixpoint span (p : ascii -> bool) (s : string) : string * string :=
  match s with
  | EmptyString => (EmptyString, EmptyString)
  | String c s' =>
      if p c then let '(a, b) := span p s' in (String c a, b)
      else (EmptyString, s)
  end.

Fixpoint filter (p : ascii -> bool) (s : string) : string :=
  match s with
  | EmptyString => EmptyString
  | String c s' => if p c then String c (filter p s') else filter p s'
  end.

Fixpoint all (p : ascii -> bool) (s : string) : bool :=
  match s with
  | EmptyString => true
  | String c s' => p c && all p s'
  end.

(** [s] cut after its last ["/"]: the part up to and including that slash
    (empty when there is none) and the part after it. *)
Fixpoint rcut_slash (s : string) : string * string :=
  match s with
  | EmptyString => (EmptyString, EmptyString)
  | String c s' =>
      let '(h, t) := rcut_slash s' in
      if nonempty h then (String c h, t)
      else if Ascii.eqb c "/" then (String c EmptyString, t)
      else (EmptyString, String c t)
  end.

End PyStr.

(** ** The standard library's [urllib.parse.urlparse]

    [url_class.py] reads the [netloc] and [path] attributes of
    [urlparse(url)].  The model follows CPython's [Lib/urllib/parse.py] of
    release 3.11 ([urlsplit], [_splitnetloc], [_splitparams], [urlparse]) on
    [str] arguments.  The validation of a bracketed host ([_check_bracketed_netloc],
    which calls into [ipaddress] and differs between releases) is a parameter
    of the model. *)

Class UrlLib : Type :=
  check_bracketed_netloc : string -> result unit.

Module urllib.

Record ParseResult : Type := mkParseResult {
  scheme : string;
  netloc : string;
  path : string;
  params : string;
  query : string;
  fragment : string
}.

Definition uses_params : list string :=
  [""; "ftp"; "hdl"; "prospero"; "http"; "imap"; "https"; "shttp"; "rtsp";
   "rtspu"; "sip"; "sips"; "mms"; "sftp"; "tel"].

Definition is_scheme_char (c : ascii) : bool :=
  PyStr.between 97 122 c || PyStr.between 65 90 c || PyStr.between 48 57 c
  || PyStr.mem c "+-.".

Definition isascii_alpha (c : ascii) : bool :=
  PyStr.between 65 90 c || PyStr.between 97 122 c.

(** [_WHATWG_C0_CONTROL_OR_SPACE] *)
Definition c0_control_or_space (c : ascii) : bool := (PyStr.code c <=? 32)%N.

(** [_UNSAFE_URL_BYTES_TO_REMOVE]: tab, carriage return, line feed. *)
Definition unsafe_byte (c : ascii) : bool :=
  (PyStr.code c =? 9)%N || (PyStr.code c =? 13)%N || (PyStr.code c =? 10)%N.

(** The scheme test of [urlsplit]: [i = url.find(':')], [i > 0], a leading
    ASCII letter and only scheme characters before the colon. *)
Definition split_scheme (url : string) : string * string :=
  match PyStr.partition ":" url with
  | Some (String c0 pre, rest) =>
      if isascii_alpha c0 && PyStr.all is_scheme_char (String c0 pre)
      then (PyStr.lower (String c0 pre), rest)
      else (EmptyString, url)
  | _ => (EmptyString, url)
  end.

(** [_splitnetloc(url, 2)] on the text after the leading ["//"]. *)
Definition splitnetloc (after_slashes : string) : string * string :=
  PyStr.span (fun c => negb (PyStr.mem c "/?#")) after_slashes.

Definition split_once (sep : ascii) (url : string) : string * string :=
  match PyStr.partition sep url with
  | Some (a, b) => (a, b)
  | None => (url, EmptyString)
  end.

Definition urlsplit `{UrlLib} (url0 : string)
  : result (string * string * string * string * string) :=
  let url := PyStr.lstrip_with c0_control_or_space url0 in
  let url := PyStr.filter (fun c => negb (unsafe_byte c)) url in
  let '(scheme, url) := split_scheme url in
  let* '(netloc, url) :=
    match url with
    | String "/" (String "/" after) =>
        let '(netloc, rest) := splitnetloc after in
        let open := PyStr.mem "[" netloc in
        let close := PyStr.mem "]" netloc in
        if (open && negb close) || (close && negb open)
        then Raise (ValueError "Invalid IPv6 URL")
        else if open && close
        then let* _ := check_bracketed_netloc netloc in Ok (netloc, rest)
        else Ok (netloc, rest)
    | _ => Ok (EmptyString, url)
    end in
  let '(url, fragment) := split_once "#" url in
  let '(url, query) := split_once "?" url in
  Ok (scheme, netloc, url, query, fragment).

(** [_splitparams]: the parameters start at the first [";"] after the last
    ["/"]. *)
Definition splitparams (url : string) : string * string :=
  let '(head, tail) := PyStr.rcut_slash url in
  match PyStr.partition ";" tail with
  | Some (a, b) => (head ++ a, b)
  | None => (url, EmptyString)
  end.

Definition urlparse `{UrlLib} (url : string) : result ParseResult :=
  let* '(scheme, netloc, url, query, fragment) := urlsplit url in
  let '(url, params) :=
    if bool_decide (scheme ∈ uses_params) && PyStr.mem ";" url
    then splitparams url
    else (url, EmptyString) in
  Ok (mkParseResult scheme netloc url params query fragment).

End urllib.

(** A release in which every bracketed host is let through. *)
Definition lenient_urllib : UrlLib := fun _ => Ok tt.

(** ** [src/url_class.py] *)

Module Code.
Record t : Type := mk { link : string; namespace : string }.
End Code.

Module Dataset.
Record t : Type :=
  mk { link : string; namespace : string; repo : string; rev : string }.
End Dataset.

Module Model.
Record t : Type :=
  mk { link : string; namespace : string; repo : string; rev : string }.
End Model.

Record ProjectGroup : Type := mkProjectGroup {
  code : option Code.t;
  dataset : option Dataset.t;
  model : option Model.t
}.

(** [parsed.path.strip("/").split("/")] *)
Definition path_parts (path : string) : list string :=
  PyStr.split "/" (PyStr.strip_chars "/" path).

Definition parse_huggingface_url `{UrlLib} (url : string)
  : result (string * string * string) :=
  let* parsed := urllib.urlparse url in
  let parts := path_parts (urllib.path parsed) in
  if (length parts <? 2)%nat
  then Raise (ValueError ("Invalid Hugging Face URL: " ++ url))
  else
    let namespace := nth 0 parts "" in
    let repo := nth 1 parts "" in
    let rev := "main" in
    let rev :=
      if (4 <=? length parts)%nat && String.eqb (nth 2 parts "") "tree"
      then nth 3 parts ""
      else rev in
    Ok (namespace, repo, rev).

Definition parse_dataset_url `{UrlLib} (url : string) : result string :=
  let* parsed := urllib.urlparse url in
  if PyStr.contains "huggingface.co" (urllib.netloc parsed) then
    let parts := path_parts (urllib.path parsed) in
    if (length parts <? 2)%nat || negb (String.eqb (nth 0 parts "") "datasets")
    then Raise (ValueError ("Invalid Hugging Face dataset URL: " ++ url))
    else Ok (List.last parts "")
  else if PyStr.contains "github.com" (urllib.netloc parsed) then
    Ok url
  else
    Raise (ValueError ("Unsupported dataset URL: " ++ url)).

(** *** Reading the manifest

    [path.open("r", encoding="ASCII")] and [for line in f]: the bytes of the
    file are decoded as ASCII, line ends are translated (universal newlines)
    and the text is cut after each line feed.  The model decodes the whole
    file before the first line is handed out; with an undecodable byte and a
    malformed line in one file, which of the two errors is reported first
    depends on the reader's buffering and is not part of the model. *)

Definition filesystem : Type := string -> option string.

Definition decode_ascii (bytes : string) : result string :=
  if PyStr.all (fun c => (PyStr.code c <? 128)%N) bytes
  then Ok bytes
  else Raise (UnicodeDecodeError "'ascii' codec can't decode byte").

Definition LF : ascii := ascii_of_N 10.
Definition CR : ascii := ascii_of_N 13.

Fixpoint universal_newlines (s : string) : string :=
  match s with
  | EmptyString => EmptyString
  | String c s' =>
      if Ascii.eqb c CR then
        match s' with
        | String d s'' =>
            if Ascii.eqb d LF then String LF (universal_newlines s'')
            else String LF (universal_newlines s')
        | EmptyString => String LF EmptyString
        end
      else String c (universal_newlines s')
  end.

Fixpoint cut_lines (s : string) : list string :=
  match s with
  | EmptyString => []
  | String c s' =>
      if Ascii.eqb c LF then String c EmptyString :: cut_lines s'
      else match cut_lines s' with
           | x :: xs => String c x :: xs
           | [] => [String c EmptyString]
           end
  end.

Definition file_lines (text : string) : list string :=
  cut_lines (universal_newlines text).

(** [parts = [p.strip() for p in line.split(",")]], then
    [while len(parts) < 3: parts.append("")], on the stripped line. *)
Definition line_parts (line : string) : list string :=
  let parts := map PyStr.strip (PyStr.split "," line) in
  (parts ++ repeat EmptyString (3 - length parts))%list.

(** [code_link, dataset_link, model_link = parts] *)
Definition unpack3 (parts : list string) : result (string * string * string) :=
  match parts with
  | [a; b; c] => Ok (a, b, c)
  | _ :: _ :: _ :: _ :: _ =>
      Raise (ValueError "too many values to unpack (expected 3)")
  | _ => Raise (ValueError "not enough values to unpack (expected 3)")
  end.

(** The body of the [for] loop: [None] is [continue], [Some group] is the
    group appended to [project_groups]. *)
Definition process_line `{UrlLib} (raw : string) : result (option ProjectGroup) :=
  let line := PyStr.strip raw in
  if negb (PyStr.nonempty line) then Ok None
  else
    let parts := line_parts line in
    let* '(code_link, dataset_link, model_link) := unpack3 parts in
    let* _ :=
      if PyStr.nonempty model_link then parse_huggingface_url model_link
      else Ok (EmptyString, EmptyString, "main") in
    let code :=
      if PyStr.nonempty code_link then Some (Code.mk code_link "") else None in
    let* dataset :=
      if PyStr.nonempty dataset_link then
        let* data_repo := parse_dataset_url dataset_link in
        Ok (Some (Dataset.mk dataset_link "" data_repo ""))
      else Ok None in
    let* model :=
      if PyStr.nonempty model_link then
        let* '(ns, rp, rev) := parse_huggingface_url model_link in
        Ok (Some (Model.mk model_link ns rp rev))
      else Ok None in
    Ok (Some (mkProjectGroup code dataset model)).

Fixpoint for_lines `{UrlLib} (lines : list string) (project_groups : list ProjectGroup)
  : result (list ProjectGroup) :=
  match lines with
  | [] => Ok project_groups
  | line :: rest =>
      let* step := process_line line in
      match step with
      | None => for_lines rest project_groups
      | Some group => for_lines rest (project_groups ++ [group])%list
      end
  end.

Definition parse_project_file `{UrlLib} (fs : filesystem) (filepath : string)
  : result (list ProjectGroup) :=
  match fs filepath with
  | None => Raise (FileNotFoundError filepath)
  | Some bytes =>
      let* text := decode_ascii bytes in
      for_lines (file_lines text) []
  end.

(** A file system holding one file. *)
Definition single_file (name bytes : string) : filesystem :=
  fun p => if String.eqb p name then Some bytes else None.

(** * [src/metrics/calculate_license_score.py]

    Scores and times are Python floats; the scores are the decimal literals
    of the source and are read as rationals, the two readings of
    [time.time()] are parameters.  [os.getpid()] is the parameter [pid].

    [log_queue] is whatever object the caller hands in: the function only
    calls its [put] method, which may raise.  A log sink is therefore a
    state of any type [Sink] with a [put] that gives the next state and,
    when it raises, the exception.  The messages are kept as records of
    what the f-strings are built from. *)

Inductive log_entry : Type :=
| LogStarting (pid : nat) (license_info : option string)
| LogLicenseFound (pid : nat) (license_info : option string)
| LogNoLicense (pid : nat)
| LogInfo (pid : nat) (message : string)
| LogCriticalError (pid : nat) (license_info : option string) (e : exn)
| LogFinished (pid : nat) (score time_taken : Q).

Module LicenseScore.

Section Metric.

Context {Sink : Type}.
Variable put : log_entry -> Sink -> option exn * Sink.

(** Computations that log and may raise. *)
Definition prog (A : Type) : Type := Sink -> result A * Sink.

Definition pure {A : Type} (a : A) : prog A := fun q => (Ok a, q).

Definition pbind {A B : Type} (m : prog A) (k : A -> prog B) : prog B :=
  fun q =>
    match m q with
    | (Ok a, q') => k a q'
    | (Raise e, q') => (Raise e, q')
    end.

Notation "'let+' x := m 'in' k" := (pbind m (fun x => k))
  (at level 10, x name, m at level 100, k at level 200).
Notation "m >>+ k" := (pbind m (fun _ => k))
  (at level 65, right associativity).

(** [log_queue.put(entry)] *)
Definition log_queue_put (entry : log_entry) : prog unit :=
  fun q =>
    match put entry q with
    | (None, q') => (Ok tt, q')
    | (Some e, q') => (Raise e, q')
    end.

(** [try: body except Exception as e: handler] *)
Definition try_except {A : Type} (body : prog A) (handler : exn -> prog A) : prog A :=
  fun q =>
    match body q with
    | (Ok a, q') => (Ok a, q')
    | (Raise e, q') => if is_Exception e then handler e q' else (Raise e, q')
    end.

(** [if cond: statement] *)
Definition when (cond : bool) (m : prog unit) : prog unit :=
  if cond then m else pure tt.

(** Truth value of [license_info]: neither [None] nor the empty string. *)
Definition truthy (license_info : option string) : bool :=
  match license_info with
  | Some s => PyStr.nonempty s
  | None => false
  end.

(** [str(license_info)] *)
Definition str (license_info : option string) : string :=
  match license_info with
  | Some s => s
  | None => "None"
  end.

(** [any(license in license_text for license in licenses)] *)
Definition any_in (licenses : list string) (license_text : string) : bool :=
  existsb (fun license => PyStr.contains license license_text) licenses.

Definition permissive_licenses : list string :=
  ["mit"; "apache-2.0"; "apache2"; "apache license 2.0";
   "bsd-2-clause"; "bsd-3-clause"; "bsd-2"; "bsd-3"; "bsd";
   "unlicense"; "cc0"; "creative commons zero"].

Section Call.

Variable pid : nat.
Variables start_time end_time : Q.
Variable license_info : option string.
Variable verbosity : Z.

Definition informational : bool := (1 <=? verbosity)%Z.

(** One arm of the [if]/[elif] chain: [score = s], then the message. *)
Definition tier (s : Q) (message : string) : prog Q :=
  when informational (log_queue_put (LogInfo pid message)) >>+
  pure s.

(** The body of the [try] block. *)
Definition try_body : prog Q :=
  when informational
    (if truthy license_info
     then log_queue_put (LogLicenseFound pid license_info)
     else log_queue_put (LogNoLicense pid)) >>+
  let license_text :=
    if truthy license_info then PyStr.strip (PyStr.lower (str license_info))
    else "unknown" in
  if any_in permissive_licenses license_text then
    tier 1.0 "Highly permissive license -> Score = 1.0"
  else if PyStr.contains "lgpl-2.1" license_text
          || PyStr.contains "lgplv2.1" license_text then
    tier 0.9 "LGPL-2.1 license -> Score = 0.9"
  else if any_in ["mpl-2.0"; "mpl2"; "mozilla public license 2.0";
                  "eclipse-2.0"; "eclipse public license 2.0"] license_text then
    tier 0.8 "Permissive with conditions -> Score = 0.8"
  else if any_in ["lgpl"; "lgpl-"; "lesser general public license"] license_text then
    tier 0.7 "LGPL family license -> Score = 0.7"
  else if PyStr.contains "openrail" license_text then
    tier 0.7 "OpenRAIL license -> Score = 0.7"
  else if any_in ["llama2"; "gemma"; "bigscience"; "bigcode"] license_text then
    tier 0.6 "Modern ML license -> Score = 0.6"
  else if any_in ["lgpl-3.0"; "lgplv3"; "epl-1.0"; "epl-2.0"] license_text then
    tier 0.6 "Weak copyleft license -> Score = 0.6"
  else if any_in ["gpl-2.0"; "gplv2"] license_text then
    tier 0.5 "GPL-2.0 license -> Score = 0.5"
  else if any_in ["gpl-3.0"; "gplv3"; "gpl"; "agpl"; "affero gpl"] license_text then
    tier 0.3 "Strong copyleft license -> Score = 0.3"
  else if any_in ["non-commercial"; "noncommercial"; "research-only";
                  "research use"; "no-derivatives"; "cc-by-nc";
                  "educational"; "academic"; "non-profit"] license_text then
    tier 0.2 "Restricted license -> Score = 0.2"
  else if any_in ["proprietary"; "closed source"; "commercial";
                  "all rights reserved"] license_text then
    tier 0.0 "Proprietary license -> Score = 0.0"
  else
    tier 0.5 "Unknown license -> Score = 0.5".

(** The [except Exception as e] handler. *)
Definition handler (e : exn) : prog Q :=
  when informational (log_queue_put (LogCriticalError pid license_info e)) >>+
  pure 0.5%Q.

Definition calculate_license_score : prog (Q * Q) :=
  when informational (log_queue_put (LogStarting pid license_info)) >>+
  let+ score := try_except try_body handler in
  let time_taken := (end_time - start_time)%Q in
  when informational (log_queue_put (LogFinished pid score time_taken)) >>+
  pure (score, time_taken).

End Call.
End Metric.

(** *** Log sinks *)

(** A queue that accepts every entry ([queue.Queue()]). *)
Definition queue_put (entry : log_entry) (q : list log_entry)
  : option exn * list log_entry :=
  (None, (q ++ [entry])%list).

(** A [multiprocessing.Queue]: [put] on a queue that was closed raises
    [ValueError]. *)
Record mp_queue : Type := mkQueue { closed : bool; items : list log_entry }.

Definition mp_put (entry : log_entry) (q : mp_queue) : option exn * mp_queue :=
  if closed q then (Some (ValueError "Queue is closed"), q)
  else (None, mkQueue false (items q ++ [entry])%list).

(** A queue proxy whose connection breaks for one call: the sink counts the
    calls of [put], and the call numbered [bad] (from 0) raises. *)
Definition flaky_put (bad : nat) (entry : log_entry) (calls : nat)
  : option exn * nat :=
  (if Nat.eqb calls bad then Some (BrokenPipeError "Broken pipe") else None,
   S calls).

End LicenseScore.

(** * The concurrent evaluator

    [run.py] builds one input record per model-bearing group and hands it to
    [metric_caller.run_concurrently_from_file]; the module [metric_caller]
    is not among the sources. *)

(** [input_dict] of [run.py]. *)
Module MetricInputRecord.
Record t : Type := mk {
  repo_owner : string;
  repo_name : string;
  verbosity : Z;
  log_queue : string;
  model_size_bytes : Q;
  github_str : string;
  dataset_name : string;
  filename : string;
  license : string
}.
End MetricInputRecord.

Module metric_caller.

(** Modelled from the spec: the [MetricResult] of section 3, a score and a
    latency in seconds. *)
Record MetricResult : Type := mkResult { score : Q; latency : Q }.

(** Modelled from the spec: a metric implementation of section 4.3,
    [evaluate(input) -> (score, latency)]; [None] stands for a call that
    raised or returned a malformed value. *)
Definition metric : Type := MetricInputRecord.t -> option MetricResult.

Section Evaluator.

(** Modelled from the spec: the neutral default to which a failing metric
    degrades (section 4.4, step 4); its value is left open there. *)
Variable neutral : MetricResult.

(** Modelled from the spec: step 1 of section 4.4, the task list resolved
    into an ordered set of names, each checked against the registry; an
    unknown name is a configuration error. *)
Definition resolve_tasks (registry : gmap string metric) (task_list : list string)
  : result (list string) :=
  let selected := remove_dups task_list in
  match List.find (fun name => bool_decide (registry !! name = None)) selected with
  | Some unknown => Raise (ValueError ("Unknown metric: " ++ unknown))
  | None => Ok selected
  end.

(** Modelled from the spec: steps 2 to 4 of section 4.4 for one metric, the
    call on the shared input record, a failure degrading to the neutral
    default. *)
Definition evaluate (registry : gmap string metric) (input : MetricInputRecord.t)
    (name : string) : MetricResult :=
  match registry !! name with
  | Some f => default neutral (f input)
  | None => neutral
  end.

(** Modelled from the spec: the order in which the concurrent units
    complete (section 4.4, ordering guarantee: it need not be the dispatch
    order).  The scheduler is a list of numbers; each one picks, among the
    units still running, the one that completes next. *)
Fixpoint completion_order (schedule : list nat) (pending : list string) (fuel : nat)
  : list string :=
  match fuel, pending with
  | S fuel', _ :: _ =>
      let i := hd 0 schedule `mod` length pending in
      match pending !! i with
      | Some name => name :: completion_order (tl schedule) (delete i pending) fuel'
      | None => []
      end
  | _, _ => []
  end.

(** Modelled from the spec: step 5 of section 4.4, the aggregate latency as
    the latency of the slowest metric. *)
Definition slowest (results : list MetricResult) : Q :=
  foldr (fun r acc => if Qle_bool acc (latency r) then latency r else acc) 0%Q results.

(** Modelled from the spec: step 5 of section 4.4, the completed results
    entered into the report in completion order. *)
Definition collect (entries : list (string * MetricResult)) : gmap string MetricResult :=
  foldl (fun report entry => <[entry.1 := entry.2]> report) ∅ entries.

(** Modelled from the spec: [run_concurrently] of section 4.4. *)
Definition run_concurrently (schedule : list nat) (task_list : list string)
    (input : MetricInputRecord.t) (registry : gmap string metric)
  : result (gmap string MetricResult * Q) :=
  let* selected := resolve_tasks registry task_list in
  let completed := completion_order schedule selected (length selected) in
  let entries := map (fun name => (name, evaluate registry input name)) completed in
  Ok (collect entries, slowest (map snd entries)).

End Evaluator.
End metric_caller.

(** * Calls into the outside world

    [get_model_metrics.py], the loop of [run.py] and [llm_child_api.py] call
    classes and modules that are not among the sources ([HuggingFaceApi],
    [metric_caller], [json_output], the parent class [Api]).  These calls
    reach the network and the terminal; they are operations on a world of any
    type [W], gathered in classes, and the functions that use them are
    actions on [W] that may raise. *)

Definition action (W A : Type) : Type := W -> result A * W.

Module Action.

Definition ret {W A : Type} (a : A) : action W A := fun w => (Ok a, w).

Definition raise {W A : Type} (e : exn) : action W A := fun w => (Raise e, w).

Definition bind {W A B : Type} (m : action W A) (k : A -> action W B)
  : action W B :=
  fun w =>
    match m w with
    | (Ok a, w') => k a w'
    | (Raise e, w') => (Raise e, w')
    end.

(** [try: body except Exception: handler] *)
Definition try_except {W A : Type} (body : action W A) (handler : exn -> action W A)
  : action W A :=
  fun w =>
    match body w with
    | (Ok a, w') => (Ok a, w')
    | (Raise e, w') => if is_Exception e then handler e w' else (Raise e, w')
    end.

End Action.

Notation "'let!' x := m 'in' k" := (Action.bind m (fun x => k))
  (at level 10, x name, m at level 100, k at level 200).
Notation "'let!' ' p := m 'in' k" :=
  (Action.bind m (fun x => match x with p => k end))
  (at level 10, p pattern, m at level 100, k at level 200).

(** ** [get_model_metrics.py] *)

Module get_model_metrics.

(** An item of the tag list: a [str], or a value of another type. *)
Inductive tag : Type :=
| TagStr (s : string)
| TagOther.

(** What [download_file] returns: a path or a list of paths. *)
Inductive downloaded : Type :=
| PathStr (path : string)
| PathList (paths : list string).

(** The methods of [HuggingFaceApi(namespace, repo, rev)] that the module
    calls, typed by the use it makes of their results: the sizes of the
    listed files ([f["size"]], an integer or [None]), the downloaded path,
    and the value of [get_model_info().get("tags", [])]. *)
Class HuggingFaceApi (W : Type) : Type := {
  get_model_files_info : string -> string -> string -> action W (list (option Z));
  download_file :
    string -> string -> string -> string -> string -> action W downloaded;
  get_model_info_tags : string -> string -> string -> action W (list tag)
}.

Fixpoint skip (n : nat) (s : string) : string :=
  match n, s with
  | S n', String _ s' => skip n' s'
  | _, _ => s
  end.

(** The text after the first occurrence of [sep] in [s]. *)
Fixpoint after_first (sep s : string) : option string :=
  if String.prefix sep s then Some (skip (String.length sep) s)
  else match s with
       | EmptyString => None
       | String _ s' => after_first sep s'
       end.

(** [s.split(sep, 1)[-1]] for a non-empty [sep]. *)
Definition split1_last (sep s : string) : string :=
  match after_first sep s with
  | Some rest => rest
  | None => s
  end.

Section Api.
Context {W : Type} `{HuggingFaceApi W}.

(** [float(sum((f["size"] or 0) for f in files_info))]: the integer total,
    read as a rational.  The rounding of [float] for totals of 2^53 and
    more, and its [OverflowError], are not part of the model; no property
    below speaks of the value. *)
Definition get_model_size (namespace repo rev : string) : action W Q :=
  let! files_info := get_model_files_info namespace repo rev in
  let total_size :=
    inject_Z (foldl Z.add 0%Z (map (fun size => default 0%Z size) files_info)) in
  Action.ret total_size.

Definition get_model_README (namespace repo rev : string) : action W string :=
  let! path_or_paths :=
    download_file namespace repo rev "model_file_download" "README.md" in
  let README_filepath :=
    match path_or_paths with
    | PathList paths =>
        match paths with
        | first :: _ => first
        | [] => EmptyString
        end
    | PathStr path => path
    end in
  Action.ret README_filepath.

(** The [for t in tags] loop. *)
Fixpoint first_license (tags : list tag) : string :=
  match tags with
  | [] => EmptyString
  | t :: rest =>
      match t with
      | TagStr s =>
          if String.prefix "license:" s then split1_last "license:" s
          else first_license rest
      | TagOther => first_license rest
      end
  end.

Definition get_model_license (namespace repo rev : string) : action W string :=
  let! tags := get_model_info_tags namespace repo rev in
  Action.ret (first_license tags).

End Api.
End get_model_metrics.

(** ** The loop of [run.py] over the project groups *)

Module run.

(** [metric_caller.load_available_functions],
    [metric_caller.run_concurrently_from_file], [build_model_output] and
    [print]. *)
Class Collaborators (W Registry Scores : Type) : Type := {
  load_available_functions : string -> action W Registry;
  run_concurrently_from_file :
    string -> MetricInputRecord.t -> Registry -> string -> action W (Scores * Q);
  build_model_output : string -> string -> Scores -> Q -> action W unit;
  print : string -> action W unit
}.

Section Main.
Context {W Registry Scores : Type}.
Context `{get_model_metrics.HuggingFaceApi W} `{Collaborators W Registry Scores}.

Variable verbose : bool.
Variable log_level : Z.
Variable log_file_path : string.

(** The body of [for i in project_groups].  The fields of a [Model] are
    strings, so the test [namespace is None or repo is None] never holds and
    is left out. *)
Definition evaluate_group (x : Registry) (i : ProjectGroup) : action W unit :=
  match model i with
  | None =>
      if verbose then print "Skipping a project with no model info."
      else Action.ret tt
  | Some m =>
      let namespace := Model.namespace m in
      let repo := Model.repo m in
      let rev := if PyStr.nonempty (Model.rev m) then Model.rev m else "main" in
      let! size := get_model_metrics.get_model_size namespace repo rev in
      let! filename := get_model_metrics.get_model_README namespace repo rev in
      let! license_value :=
        get_model_metrics.get_model_license namespace repo rev in
      let github_str :=
        match code i with
        | Some code_obj => Code.link code_obj
        | None => EmptyString
        end in
      let dataset_name :=
        match dataset i with
        | Some dataset_obj => Dataset.repo dataset_obj
        | None => EmptyString
        end in
      let input_dict :=
        MetricInputRecord.mk namespace repo log_level log_file_path size
          github_str dataset_name filename license_value in
      let! '(scores, latency) :=
        run_concurrently_from_file "./tasks.txt" input_dict x log_file_path in
      build_model_output repo "model" scores latency
  end.

Fixpoint for_groups (x : Registry) (project_groups : list ProjectGroup)
  : action W unit :=
  match project_groups with
  | [] => Action.ret tt
  | i :: rest => let! _ := evaluate_group x i in for_groups x rest
  end.

(** The branch of [main] that runs a URL file. *)
Definition run_url_file `{UrlLib} (fs : filesystem) (target : string)
  : action W Z :=
  match parse_project_file fs target with
  | Raise e => Action.raise e
  | Ok project_groups =>
      let! x := load_available_functions "metrics" in
      let! _ := for_groups x project_groups in
      Action.ret 0%Z
  end.

End Main.
End run.

(** ** [src/classes/llm_child_api.py] *)

(** Values of the JSON kind: [None], [bool], numbers, [str], [list] and
    [dict] (the items of a [dict] in insertion order, the keys distinct). *)
#[local] Unset Elimination Schemes.
Inductive json : Type :=
| JNull
| JBool (b : bool)
| JNumber (n : Q)
| JString (s : string)
| JArray (items : list json)
| JObject (fields : list (string * json)).
#[local] Set Elimination Schemes.

(** [d.get(key)] *)
Fixpoint dict_get (key : string) (fields : list (string * json)) : option json :=
  match fields with
  | [] => None
  | (k, v) :: rest => if String.eqb k key then Some v else dict_get key rest
  end.

Module llm_child_api.

(** [Api.post], the method of the parent class, for the client's base URL. *)
Class Api (W : Type) : Type :=
  post : string -> string -> json -> action W json.

(** [json.loads] *)
Class JsonLib : Type :=
  loads : string -> result json.

Record GenAiChatApi : Type := mkGenAiChatApi {
  base_url : string;
  model : string
}.

Definition CHAT_ENDPOINT : string := "/api/chat/completions".

(** The part of [get_chat_completion] after the decoding: the text of
    [response_data["choices"][0]["message"]["content"]], every step
    guarded by [isinstance]. *)
Definition extract_content (response_data : json) : string :=
  match response_data with
  | JObject fields =>
      match dict_get "choices" fields with
      | Some (JArray (first_choice :: _)) =>
          match first_choice with
          | JObject choice =>
              match dict_get "message" choice with
              | Some (JObject message) =>
                  match dict_get "content" message with
                  | Some (JString text) => text
                  | _ => EmptyString
                  end
              | _ => EmptyString
              end
          | _ => EmptyString
          end
      | _ => EmptyString
      end
  | _ => EmptyString
  end.

Section Client.
Context {W : Type} `{Api W} `{JsonLib}.

Definition get_chat_completion (self : GenAiChatApi) (content : string)
  : action W string :=
  let payload :=
    JObject [("model", JString (model self));
             ("messages",
              JArray [JObject [("role", JString "user");
                               ("content", JString content)]]);
             ("stream", JBool false)] in
  Action.try_except
    (let! response_data := post (base_url self) CHAT_ENDPOINT payload in
     match response_data with
     | JString s =>
         match loads s with
         | Ok decoded => Action.ret (extract_content decoded)
         | Raise e =>
             if is_Exception e then Action.ret EmptyString else Action.raise e
         end
     | _ => Action.ret (extract_content response_data)
     end)
    (fun _ => Action.ret EmptyString).

End Client.
End llm_child_api.

(** * Vocabulary of the properties *)

(** The revision rule in the words of the specification (section 4.2): the
    fourth path segment is compared with ["tree"] and the fifth is the
    revision.  Only used to show that the source does not follow it. *)
Definition revision_as_specified (parts : list string) : string :=
  match parts !! 3, parts !! 4 with
  | Some tag, Some fifth => if String.eqb tag "tree" then fifth else "main"
  | _, _ => "main"
  end.

(** ** The components of a URL

    [urlparse] answers for a URL whose network location it accepts and raises
    for the others.  The properties speak of the network location and of the
    path of every URL, so both are read off the text here, cut exactly as
    [urlsplit] and [urlparse] cut it but without the validation of square
    brackets; whenever [urlparse] returns, it returns these components
    ([urlparse_cases] below). *)

(** The text after a leading ["//"]. *)
Definition after_slashes (url : string) : option string :=
  match url with
  | String "/" (String "/" after) => Some after
  | _ => None
  end.

Definition url_components (url0 : string) : urllib.ParseResult :=
  let url := PyStr.lstrip_with urllib.c0_control_or_space url0 in
  let url := PyStr.filter (fun c => negb (urllib.unsafe_byte c)) url in
  let '(scheme, url) := urllib.split_scheme url in
  let '(netloc, url) :=
    match url with
    | String "/" (String "/" after) => urllib.splitnetloc after
    | _ => (EmptyString, url)
    end in
  let '(url, fragment) := urllib.split_once "#" url in
  let '(url, query) := urllib.split_once "?" url in
  let '(url, params) :=
    if bool_decide (scheme ∈ urllib.uses_params) && PyStr.mem ";" url
    then urllib.splitparams url
    else (url, EmptyString) in
  urllib.mkParseResult scheme netloc url params query fragment.

Definition url_netloc (url : string) : string := urllib.netloc (url_components url).
Definition url_path (url : string) : string := urllib.path (url_components url).

(** A network location under a domain, in the words of the specification
    (section 4.2, "identities under a model-hosting domain"): the domain
    itself or a name that ends with a dot and the domain.  Names are compared
    as they are written, which is how the source compares them. *)
Fixpoint ends_with (suffix s : string) : bool :=
  String.eqb s suffix ||
  match s with
  | EmptyString => false
  | String _ s' => ends_with suffix s'
  end.

Definition under_domain (domain netloc : string) : bool :=
  String.eqb netloc domain || ends_with (String "." domain) netloc.

Section UrlVocabulary.
Context `{UrlLib}.

(** A network location that [urlparse] rejects: a square bracket without its
    partner, or a bracketed host that the library's validation refuses. *)
Definition host_rejected (url : string) : Prop :=
  let netloc := url_netloc url in
  let open := PyStr.mem "[" netloc in
  let close := PyStr.mem "]" netloc in
  xorb open close = true \/
  (open && close = true /\ raises (check_bracketed_netloc netloc)).

(** The format rule in the words of the specification (section 4.2): the
    call fails exactly when the path of the URL has fewer than two
    slash-separated segments, and every URL with two or more succeeds.  Only
    used to show that the source does not follow it for every URL. *)
Definition segments_as_specified (url : string) : Prop :=
  (raises (parse_huggingface_url url)
   <-> length (path_parts (url_path url)) < 2) /\
  (2 <= length (path_parts (url_path url)) -> returns (parse_huggingface_url url)).

(** The dataset recognizer in the words of the specification (section 4.2):
    a link under the model-hosting domain with the ["datasets"] namespace
    segment yields the trailing path segment, a link under the code-hosting
    domain is returned as it is, and a link under any other domain is a
    recognition error.  Only used to show that the source does not follow
    it. *)
Definition recognizer_as_specified (url : string) : Prop :=
  let parts := path_parts (url_path url) in
  let host := url_netloc url in
  (under_domain "huggingface.co" host = true ->
   parts !! 0 = Some "datasets" -> 2 <= length parts ->
   exists id, last parts = Some id /\ parse_dataset_url url = Ok id) /\
  (under_domain "github.com" host = true -> parse_dataset_url url = Ok url) /\
  (under_domain "huggingface.co" host = false ->
   under_domain "github.com" host = false ->
   raises (parse_dataset_url url)).

End UrlVocabulary.

(** Number of occurrences of a character. *)
Fixpoint count_char (c : ascii) (s : string) : nat :=
  match s with
  | EmptyString => 0
  | String a s' => (if Ascii.eqb a c then 1 else 0) + count_char c s'
  end.

(** A line that the loop does not skip. *)
Definition nonblank (line : string) : bool := PyStr.nonempty (PyStr.strip line).

(** The comma-separated fields of a line, before padding. *)
Definition line_fields (line : string) : list string :=
  map PyStr.strip (PyStr.split "," (PyStr.strip line)).

Section ManifestVocabulary.
Context `{UrlLib}.

(** A model link, or a dataset link, that its recognizer rejects. *)
Definition malformed_model_link (line : string) : Prop :=
  exists m, line_parts (PyStr.strip line) !! 2 = Some m /\ m <> "" /\
            raises (parse_huggingface_url m).

Definition malformed_dataset_link (line : string) : Prop :=
  exists d, line_parts (PyStr.strip line) !! 1 = Some d /\ d <> "" /\
            raises (parse_dataset_url d).

(** A line with at most three fields whose model and dataset links, when
    present, are accepted by their recognizers. *)
Definition well_formed_line (line : string) : Prop :=
  length (line_fields line) <= 3 /\
  (forall m, line_fields line !! 2 = Some m -> m <> "" ->
             returns (parse_huggingface_url m)) /\
  (forall d, line_fields line !! 1 = Some d -> d <> "" ->
             returns (parse_dataset_url d)).

(** What the loop body builds from the three fields of a line. *)
Definition group_of_fields (c d m : string) (g : ProjectGroup) : Prop :=
  (c = "" -> code g = None) /\
  (c <> "" -> code g = Some (Code.mk c "")) /\
  (d = "" -> dataset g = None) /\
  (d <> "" -> exists data_repo,
      parse_dataset_url d = Ok data_repo /\
      dataset g = Some (Dataset.mk d "" data_repo "")) /\
  (m = "" -> model g = None) /\
  (m <> "" -> exists ns rp rev,
      parse_huggingface_url m = Ok (ns, rp, rev) /\
      model g = Some (Model.mk m ns rp rev)).

(** The group of a line: its fields, padded with empty strings up to three,
    give the components. *)
Definition group_of_line (line : string) (g : ProjectGroup) : Prop :=
  exists c d m,
    (line_fields line ++ repeat "" (3 - length (line_fields line)))%list = [c; d; m] /\
    group_of_fields c d m g.

End ManifestVocabulary.

Section LicenseVocabulary.
Context {Sink : Type}.
Variable put : log_entry -> Sink -> option exn * Sink.

(** A log sink whose [put] does not raise, in any state and on any entry. *)
Definition never_raises : Prop := forall entry q, (put entry q).1 = None.

(** No call of [put] can raise: the function is silent or the sink is
    reliable. *)
Definition logging_safe (verbosity : Z) : Prop :=
  (verbosity < 1)%Z \/ never_raises.

End LicenseVocabulary.

Definition in_unit_interval (s : Q) : Prop := (0 <= s /\ s <= 1)%Q.

(** The entry logged at the head of the [try] block. *)
Definition found_entry (pid : nat) (license_info : option string) : log_entry :=
  if LicenseScore.truthy license_info then LogLicenseFound pid license_info
  else LogNoLicense pid.

(** [license_text] *)
Definition license_text (license_info : option string) : string :=
  if LicenseScore.truthy license_info
  then PyStr.strip (PyStr.lower (LicenseScore.str license_info))
  else "unknown".

(** ** Inputs of the concrete runs *)

Definition nl : string := String LF EmptyString.

Definition manifest_ok : string :=
  ",,https://huggingface.co/openai-community/gpt2" ++ nl ++
  "   " ++ nl ++
  "https://github.com/a/b,https://huggingface.co/datasets/stanfordnlp/imdb" ++ nl.

Definition manifest_bad_link : string :=
  ",,https://huggingface.co/openai-community/gpt2" ++ nl ++
  ",,https://host/onlyonesegment" ++ nl.

Definition manifest_four_fields : string :=
  ",,https://huggingface.co/openai-community/gpt2" ++ nl ++
  "a,b,c,d" ++ nl.

(** A manifest whose only line has a well-formed model link and a code link
    with the byte 233 in it. *)
Definition manifest_non_ascii : string :=
  "https://github.com/caf" ++
  String (ascii_of_N 233) "/repo,,https://huggingface.co/openai-community/gpt2" ++ nl.

(** A registry with a license metric that answers and a size metric that
    fails, and a task list that names the license metric twice. *)
Definition demo_registry : gmap string metric_caller.metric :=
  <["license" := fun _ => Some (metric_caller.mkResult 1.0 0.0)]>
  (<["size" := fun _ => None]> ∅).

Definition demo_input : MetricInputRecord.t :=
  MetricInputRecord.mk "openai-community" "gpt2" 0 "run.log" 0 "" "" "README.md"
    "apache-2.0".

(** ** Vocabulary of the further properties *)

(** What every group returned by the parser satisfies. *)
Definition group_invariant (g : ProjectGroup) : Prop :=
  (forall c, code g = Some c ->
     Code.link c <> "" /\ Code.namespace c = "" /\
     count_char "," (Code.link c) = 0) /\
  (forall d, dataset g = Some d ->
     Dataset.link d <> "" /\ Dataset.repo d <> "" /\
     Dataset.namespace d = "" /\ Dataset.rev d = "" /\
     count_char "," (Dataset.link d) = 0) /\
  (forall m, model g = Some m ->
     Model.link m <> "" /\ Model.namespace m <> "" /\
     count_char "," (Model.link m) = 0 /\
     count_char "/" (Model.namespace m) = 0 /\
     count_char "/" (Model.repo m) = 0 /\
     count_char "/" (Model.rev m) = 0).

(** The lines the loop looks at, as it sees them. *)
Definition significant_lines (bytes : string) : list string :=
  map PyStr.strip (List.filter nonblank (file_lines bytes)).

Definition manifest_crlf : string :=
  ",,https://huggingface.co/openai-community/gpt2" ++ String CR nl ++
  String CR nl ++
  "  https://github.com/a/b,https://huggingface.co/datasets/stanfordnlp/imdb ".

(** A file system holding the listed files. *)
Definition files (l : list (string * string)) : filesystem :=
  fun p =>
    match List.find (fun entry => String.eqb p entry.1) l with
    | Some entry => Some entry.2
    | None => None
    end.

Definition manifest_first : string :=
  ",,https://huggingface.co/openai-community/gpt2" ++ String CR nl.

Definition manifest_second : string :=
  "https://github.com/a/b,,https://huggingface.co/g/m/tree/v1".

(** A sink that takes every entry and keeps nothing. *)
Definition silent_put (entry : log_entry) (q : unit) : option exn * unit :=
  (None, q).

(** The score of a license: what a call without logging returns. *)
Definition license_score (license_info : option string) : Q :=
  match (LicenseScore.calculate_license_score silent_put 0 0 0
           license_info 0 tt).1 with
  | Ok (score, _) => score
  | Raise _ => 0.5
  end.

(** The scores that occur in the source. *)
Definition score_values : list Q :=
  [1.0; 0.9; 0.8; 0.7; 0.6; 0.5; 0.3; 0.2; 0.0]%Q.

(** The four entries of a call that logs. *)
Definition log_trace (pid : nat) (license_info : option string)
    (message : string) (time_taken : Q) : list log_entry :=
  [LogStarting pid license_info; found_entry pid license_info;
   LogInfo pid message;
   LogFinished pid (license_score license_info) time_taken].

(** A tag that [get_model_license] passes over. *)
Definition not_license_tag (t : get_model_metrics.tag) : Prop :=
  match t with
  | get_model_metrics.TagStr s => String.prefix "license:" s = false
  | get_model_metrics.TagOther => True
  end.

(** The response holds the text [text] at
    [["choices"][0]["message"]["content"]]. *)
Definition has_content (data : json) (text : string) : Prop :=
  exists fields choice rest message,
    data = JObject fields /\
    dict_get "choices" fields = Some (JArray (JObject choice :: rest)) /\
    dict_get "message" choice = Some (JObject message) /\
    dict_get "content" message = Some (JString text).

(** What [get_chat_completion] looks into: the response itself, or the
    value decoded from it when it is a [str]. *)
Definition decodes_to `{llm_child_api.JsonLib} (response data : json) : Prop :=
  match response with
  | JString s => llm_child_api.loads s = Ok data
  | _ => data = response
  end.

(** A world that records the calls made, with an API that answers every
    call and one that fails for an empty revision. *)
Inductive call : Type :=
| CallFiles (namespace repo rev : string)
| CallDownload (namespace repo rev : string)
| CallTags (namespace repo rev : string)
| CallRun (input : MetricInputRecord.t)
| CallOutput (repo : string)
| CallPrint (message : string).

Definition record {A : Type} (c : call) (a : A) : action (list call) A :=
  fun w => (Ok a, (w ++ [c])%list).

Definition recording_api : get_model_metrics.HuggingFaceApi (list call) := {|
  get_model_metrics.get_model_files_info ns repo rev :=
    record (CallFiles ns repo rev) [Some 10%Z; None; Some 5%Z];
  get_model_metrics.download_file ns repo rev kind name :=
    record (CallDownload ns repo rev)
      (get_model_metrics.PathList ["/tmp/README.md"]);
  get_model_metrics.get_model_info_tags ns repo rev :=
    record (CallTags ns repo rev)
      [get_model_metrics.TagOther; get_model_metrics.TagStr "pytorch";
       get_model_metrics.TagStr "license:apache-2.0";
       get_model_metrics.TagStr "license:mit"]
|}.

Definition strict_api : get_model_metrics.HuggingFaceApi (list call) := {|
  get_model_metrics.get_model_files_info ns repo rev :=
    if PyStr.nonempty rev
    then record (CallFiles ns repo rev) [Some 10%Z; None; Some 5%Z]
    else Action.raise (ValueError "empty revision");
  get_model_metrics.download_file ns repo rev kind name :=
    if PyStr.nonempty rev
    then record (CallDownload ns repo rev)
           (get_model_metrics.PathList ["/tmp/README.md"])
    else Action.raise (ValueError "empty revision");
  get_model_metrics.get_model_info_tags ns repo rev :=
    if PyStr.nonempty rev
    then record (CallTags ns repo rev)
           [get_model_metrics.TagOther; get_model_metrics.TagStr "pytorch";
            get_model_metrics.TagStr "license:apache-2.0";
            get_model_metrics.TagStr "license:mit"]
    else Action.raise (ValueError "empty revision")
|}.

Definition recording_collaborators : run.Collaborators (list call) unit unit := {|
  run.load_available_functions name := Action.ret tt;
  run.run_concurrently_from_file tasks input x log :=
    record (CallRun input) (tt, 0%Q);
  run.build_model_output repo kind scores latency := record (CallOutput repo) tt;
  run.print message := record (CallPrint message) tt
|}.

(** An API whose every call fails. *)
Definition failing_api : get_model_metrics.HuggingFaceApi (list call) := {|
  get_model_metrics.get_model_files_info ns repo rev :=
    Action.raise (ValueError "offline");
  get_model_metrics.download_file ns repo rev kind name :=
    Action.raise (ValueError "offline");
  get_model_metrics.get_model_info_tags ns repo rev :=
    Action.raise (ValueError "offline")
|}.

(** Groups with an empty revision, with no model, and with a plain model. *)
Definition group_empty_rev : ProjectGroup :=
  mkProjectGroup None None
    (Some (Model.mk "https://huggingface.co/g/m/tree//x" "g" "m" "")).

Definition group_no_model : ProjectGroup :=
  mkProjectGroup (Some (Code.mk "https://github.com/a/b" "")) None None.

Definition group_gpt2 : ProjectGroup :=
  mkProjectGroup None None
    (Some (Model.mk "https://huggingface.co/openai-community/gpt2"
             "openai-community" "gpt2" "main")).

(** A chat endpoint that answers with the JSON text of a completion, and a
    decoder that knows this one text. *)
Definition chat_reply : json :=
  JObject [("id", JString "c1");
           ("choices",
            JArray [JObject [("index", JNumber 0);
                             ("message",
                              JObject [("role", JString "assistant");
                                       ("content", JString "Hello")])]])].

Definition demo_post : llm_child_api.Api unit :=
  fun base endpoint payload => Action.ret (JString "{...}").

Definition demo_loads : llm_child_api.JsonLib :=
  fun s => if String.eqb s "{...}" then Ok chat_reply
           else Raise (ValueError "Expecting value").

(** * Concrete runs of the embedding *)

Example urlparse_gpt2 `{UrlLib} :
  urllib.urlparse "https://huggingface.co/openai-community/gpt2"
  = Ok (urllib.mkParseResult "https" "huggingface.co" "/openai-community/gpt2" "" "" "").
Proof. reflexivity. Qed.

Example urlparse_params `{UrlLib} :
  urllib.urlparse " HTTP://u@h:80/a;x/b;p;q?k=v#f"
  = Ok (urllib.mkParseResult "http" "u@h:80" "/a;x/b" "p;q" "k=v" "f").
Proof. reflexivity. Qed.

Example urlparse_unbalanced `{UrlLib} :
  urllib.urlparse "https://[host/ns/repo" = Raise (ValueError "Invalid IPv6 URL").
Proof. reflexivity. Qed.

Example parse_two_lines `{UrlLib} :
  parse_project_file
    (single_file "urls.txt"
       (",,https://huggingface.co/openai-community/gpt2"
        ++ String CR (String LF (String LF EmptyString))
        ++ "https://github.com/a/b, https://huggingface.co/datasets/x/imdb ,"
        ++ "https://huggingface.co/g/m/tree/v1" ++ nl))
    "urls.txt"
  = Ok [ mkProjectGroup None None
           (Some (Model.mk "https://huggingface.co/openai-community/gpt2"
                    "openai-community" "gpt2" "main"));
         mkProjectGroup (Some (Code.mk "https://github.com/a/b" ""))
           (Some (Dataset.mk "https://huggingface.co/datasets/x/imdb" "" "imdb" ""))
           (Some (Model.mk "https://huggingface.co/g/m/tree/v1" "g" "m" "v1")) ].
Proof. reflexivity. Qed.

(** The dataset recognizer looks for the two host names anywhere in the
    network location, as they are written. *)
Example parse_dataset_url_foreign_hosts `{UrlLib} :
  parse_dataset_url "https://notgithub.com/a/b" = Ok "https://notgithub.com/a/b" /\
  parse_dataset_url "https://huggingface.co.evil.org/datasets/x/y" = Ok "y" /\
  parse_dataset_url "https://HUGGINGFACE.CO/datasets/a/b"
  = Raise (ValueError "Unsupported dataset URL: https://HUGGINGFACE.CO/datasets/a/b").
Proof. split; [|split]; vm_compute; reflexivity. Qed.

(** A byte above 127 anywhere in the manifest makes the reader raise. *)
Example parse_non_ascii `{UrlLib} :
  parse_project_file (single_file "urls.txt" manifest_non_ascii) "urls.txt"
  = Raise (UnicodeDecodeError "'ascii' codec can't decode byte").
Proof. vm_compute. reflexivity. Qed.

Example license_mit_silent :
  LicenseScore.calculate_license_score LicenseScore.queue_put 7 (10 # 1) (12 # 1)
    (Some "MIT") 0 []
  = (Ok (1.0, (12 # 1) - (10 # 1)), [])%Q.
Proof. reflexivity. Qed.

Example license_none_verbose :
  LicenseScore.calculate_license_score LicenseScore.queue_put 7 (10 # 1) (12 # 1)
    None 1 []
  = (Ok (0.5, (12 # 1) - (10 # 1)),
     [LogStarting 7 None; LogNoLicense 7;
      LogInfo 7 "Unknown license -> Score = 0.5";
      LogFinished 7 0.5 ((12 # 1) - (10 # 1))])%Q.
Proof. reflexivity. Qed.

(** A [put] that raises inside the [try] block is caught: the score is the
    fallback [0.5]. *)
Example license_fallback :
  LicenseScore.calculate_license_score (LicenseScore.flaky_put 1) 7 (10 # 1) (12 # 1)
    (Some "apache-2.0") 1 0%nat
  = (Ok (0.5, (12 # 1) - (10 # 1)), 4%nat)%Q.
Proof. reflexivity. Qed.

(** A [put] that raises before the [try] block is not caught. *)
Example license_raises_closed_queue :
  LicenseScore.calculate_license_score LicenseScore.mp_put 7 (10 # 1) (12 # 1)
    (Some "apache-2.0") 1 (LicenseScore.mkQueue true [])
  = (Raise (ValueError "Queue is closed"), LicenseScore.mkQueue true []).
Proof. reflexivity. Qed.

(** * Properties of the URL classifier *)

Section UrlSyntaxFacts.

Lemma slashes_match {A : Type} (rest : string) (f : string -> A) (d : A) :
  match rest with
  | String "/" (String "/" after) => f after
  | _ => d
  end
  = match after_slashes rest with Some after => f after | None => d end.
Proof.
  destruct rest as [|c0 r]; [reflexivity|].
  destruct c0 as [[] [] [] [] [] [] [] []]; try reflexivity.
  destruct r as [|c1 after]; [reflexivity|].
  destruct c1 as [[] [] [] [] [] [] [] []]; reflexivity.
Qed.

Lemma prefix_refl s : String.prefix s s = true.
Proof.
  induction s as [|c s IH]; [reflexivity|]. simpl.
  destruct (ascii_dec c c); [exact IH | congruence].
Qed.

Lemma contains_refl s : PyStr.contains s s = true.
Proof. destruct s; cbn [PyStr.contains]; rewrite prefix_refl; reflexivity. Qed.

Lemma prefix_contains n s : String.prefix n s = true -> PyStr.contains n s = true.
Proof. destruct s; cbn [PyStr.contains]; intros ->; reflexivity. Qed.

(** A text that contains [String c n] contains [n]. *)
Lemma contains_tail c n s :
  PyStr.contains (String c n) s = true -> PyStr.contains n s = true.
Proof.
  induction s as [|a s IH]; [simpl; discriminate|].
  cbn [PyStr.contains]. intros Hc. apply orb_true_iff in Hc as [Hp|Hc].
  - simpl in Hp. destruct (ascii_dec c a); [|discriminate].
    rewrite (prefix_contains n s Hp). apply orb_true_r.
  - rewrite (IH Hc). apply orb_true_r.
Qed.

Lemma ends_with_contains suffix s :
  ends_with suffix s = true -> PyStr.contains suffix s = true.
Proof.
  induction s as [|a s IH]; cbn [ends_with PyStr.contains]; intros He.
  - rewrite orb_false_r in He. apply String.eqb_eq in He as <-. reflexivity.
  - apply orb_true_iff in He as [He|He].
    + apply String.eqb_eq in He as <-. rewrite prefix_refl. reflexivity.
    + rewrite (IH He). apply orb_true_r.
Qed.

(** A network location under a domain contains the domain's name. *)
Lemma under_domain_contains domain netloc :
  under_domain domain netloc = true -> PyStr.contains domain netloc = true.
Proof.
  unfold under_domain. intros Hu. apply orb_true_iff in Hu as [Hu|Hu].
  - apply String.eqb_eq in Hu as ->. apply contains_refl.
  - apply (contains_tail "."), ends_with_contains, Hu.
Qed.

Lemma last_lookup_Some (parts : list string) (id : string) :
  last parts = Some id -> List.last parts "" = id.
Proof.
  induction parts as [|x [|y rest] IH]; simpl; intros Hl.
  - discriminate.
  - congruence.
  - apply IH. exact Hl.
Qed.

(** The two tests of the Hugging Face branch of [parse_dataset_url]. *)
Lemma datasets_path_returns (parts : list string) :
  parts !! 0 = Some "datasets" -> 2 <= length parts ->
  (length parts <? 2)%nat || negb (String.eqb (nth 0 parts "") "datasets") = false /\
  last parts = Some (List.last parts "").
Proof.
  intros H0 Hlen. split.
  - destruct (Nat.ltb_spec (length parts) 2) as [?|_]; [lia|].
    destruct parts as [|a rest]; [discriminate|]. injection H0 as ->. reflexivity.
  - destruct (last parts) as [id|] eqn:El.
    + f_equal. symmetry. apply last_lookup_Some. exact El.
    + apply last_None in El. rewrite El in H0. discriminate.
Qed.

Lemma other_path_raises (parts : list string) :
  ~ (parts !! 0 = Some "datasets" /\ 2 <= length parts) ->
  (length parts <? 2)%nat || negb (String.eqb (nth 0 parts "") "datasets") = true.
Proof.
  intros Hn. destruct (Nat.ltb_spec (length parts) 2) as [?|Hge]; [reflexivity|].
  destruct parts as [|a rest]; [simpl in Hge; lia|]. simpl.
  destruct (String.eqb_spec a "datasets") as [->|Ha]; [|reflexivity].
  exfalso. apply Hn. split; [reflexivity | exact Hge].
Qed.

End UrlSyntaxFacts.

Section UrlClassifier.
Context `{UrlLib}.

(** An error of [urlparse] itself leaves [parse_huggingface_url] as it is. *)
Lemma parse_huggingface_url_urlparse_raises url e :
  urllib.urlparse url = Raise e -> parse_huggingface_url url = Raise e.
Proof. unfold parse_huggingface_url. intros ->. reflexivity. Qed.

(** C3, as the source has it: for every accepted URL the namespace and the
    repository are the first two path segments; when the third path segment
    is the tag ["tree"] and a fourth segment exists, the revision is that
    fourth segment, and for every other accepted URL it is ["main"]. *)
Theorem parse_huggingface_url_revision url ns repo rev :
  parse_huggingface_url url = Ok (ns, repo, rev) ->
  exists parsed,
    urllib.urlparse url = Ok parsed /\
    let parts := path_parts (urllib.path parsed) in
    parts !! 0 = Some ns /\ parts !! 1 = Some repo /\
    (parts !! 2 = Some "tree" -> is_Some (parts !! 3) -> parts !! 3 = Some rev) /\
    (~ (parts !! 2 = Some "tree" /\ is_Some (parts !! 3)) -> rev = "main").
Proof.
  unfold parse_huggingface_url.
  destruct (urllib.urlparse url) as [parsed|e]; simpl; [|discriminate].
  intros Hret. exists parsed. split; [reflexivity|].
  destruct (path_parts (urllib.path parsed)) as [|a [|b [|c [|d rest]]]];
    simpl in Hret |- *; try discriminate.
  - injection Hret as <- <- <-. repeat split; discriminate.
  - injection Hret as <- <- <-. repeat split; try discriminate.
    intros _ [x Hx]. discriminate.
  - destruct (String.eqb_spec c "tree") as [->|Hc];
      simpl in Hret; injection Hret as <- <- <-.
    + repeat split.
      intros Hn. exfalso. apply Hn. split; [reflexivity | eexists; reflexivity].
    + repeat split. intros Hc'. congruence.
Qed.

(** C4: the two examples of the specification. *)
Theorem parse_huggingface_url_examples :
  parse_huggingface_url "https://host/ns/repo" = Ok ("ns", "repo", "main") /\
  parse_huggingface_url "https://host/ns/repo/tree/v2" = Ok ("ns", "repo", "v2").
Proof. split; reflexivity. Qed.

(** [urlparse] raises for an unpaired or refused bracket in the network
    location and returns the components of the URL otherwise. *)
Lemma urlparse_cases url :
  urllib.urlparse url =
    let netloc := url_netloc url in
    let open := PyStr.mem "[" netloc in
    let close := PyStr.mem "]" netloc in
    if xorb open close then Raise (ValueError "Invalid IPv6 URL")
    else if open && close then
      let* _ := check_bracketed_netloc netloc in Ok (url_components url)
    else Ok (url_components url).
Proof.
  unfold url_netloc, url_components, urllib.urlparse, urllib.urlsplit.
  destruct (urllib.split_scheme _) as [scheme rest].
  rewrite !slashes_match.
  destruct (after_slashes rest) as [after|].
  - destruct (urllib.splitnetloc after) as [netloc r].
    destruct (urllib.split_once "#" r) as [u fr] eqn:Efr.
    destruct (urllib.split_once "?" u) as [u' q] eqn:Eq.
    destruct (bool_decide _ && PyStr.mem ";" u') eqn:Ep;
      [destruct (urllib.splitparams u') as [p ps] eqn:Esp|];
      cbn [urllib.netloc];
      destruct (PyStr.mem "[" netloc), (PyStr.mem "]" netloc); cbn;
      try reflexivity;
      try (destruct (check_bracketed_netloc netloc) as [[]|e]; cbn; [|reflexivity]);
      rewrite ?Efr, ?Eq; cbn; rewrite ?Ep, ?Esp; reflexivity.
  - destruct (urllib.split_once "#" rest) as [u fr] eqn:Efr.
    destruct (urllib.split_once "?" u) as [u' q] eqn:Eq.
    destruct (bool_decide _ && PyStr.mem ";" u') eqn:Ep;
      [destruct (urllib.splitparams u') as [p ps] eqn:Esp|];
      cbn; rewrite ?Efr, ?Eq; cbn; rewrite ?Ep, ?Esp; reflexivity.
Qed.

Lemma urlparse_dichotomy url :
  (host_rejected url /\ raises (urllib.urlparse url)) \/
  (~ host_rejected url /\ urllib.urlparse url = Ok (url_components url)).
Proof.
  rewrite urlparse_cases. unfold host_rejected. cbv zeta.
  destruct (PyStr.mem "[" (url_netloc url)), (PyStr.mem "]" (url_netloc url)); cbn.
  - destruct (check_bracketed_netloc (url_netloc url)) as [[]|e] eqn:Ec; cbn.
    + right. split; [|reflexivity].
      intros [Hx|[_ [e He]]]; discriminate.
    + left. split; [right; split; [reflexivity | eexists; reflexivity]
                   | eexists; reflexivity].
  - left. split; [left; reflexivity | eexists; reflexivity].
  - left. split; [left; reflexivity | eexists; reflexivity].
  - right. split; [|reflexivity]. intros [Hx|[Hx _]]; discriminate.
Qed.

(** What [urlparse] returns are the components of the URL. *)
Lemma urlparse_returns_inv url parsed :
  urllib.urlparse url = Ok parsed ->
  parsed = url_components url /\ ~ host_rejected url.
Proof.
  intros Hp. destruct (urlparse_dichotomy url) as [[_ [e He]]|[Hn Hc]].
  - congruence.
  - split; [congruence | exact Hn].
Qed.

Lemma urlparse_raises_iff url :
  raises (urllib.urlparse url) <-> host_rejected url.
Proof.
  destruct (urlparse_dichotomy url) as [[Hr He]|[Hn Hc]].
  - tauto.
  - split; [intros [e He]; congruence | tauto].
Qed.

Lemma unbalanced_bracket url :
  xorb (PyStr.mem "[" (url_netloc url)) (PyStr.mem "]" (url_netloc url)) = true ->
  urllib.urlparse url = Raise (ValueError "Invalid IPv6 URL").
Proof. rewrite urlparse_cases. cbv zeta. intros ->. reflexivity. Qed.

Lemma parse_huggingface_url_accepted url :
  ~ host_rejected url ->
  parse_huggingface_url url =
    let parts := path_parts (url_path url) in
    if (length parts <? 2)%nat
    then Raise (ValueError ("Invalid Hugging Face URL: " ++ url))
    else Ok (nth 0 parts "", nth 1 parts "",
             if (4 <=? length parts)%nat && String.eqb (nth 2 parts "") "tree"
             then nth 3 parts "" else "main").
Proof.
  intros Hn. destruct (urlparse_dichotomy url) as [[Hr _]|[_ Hc]]; [tauto|].
  unfold parse_huggingface_url. rewrite Hc. reflexivity.
Qed.

Lemma parse_dataset_url_accepted url :
  ~ host_rejected url ->
  parse_dataset_url url =
    let parts := path_parts (url_path url) in
    if PyStr.contains "huggingface.co" (url_netloc url) then
      if (length parts <? 2)%nat || negb (String.eqb (nth 0 parts "") "datasets")
      then Raise (ValueError ("Invalid Hugging Face dataset URL: " ++ url))
      else Ok (List.last parts "")
    else if PyStr.contains "github.com" (url_netloc url) then Ok url
    else Raise (ValueError ("Unsupported dataset URL: " ++ url)).
Proof.
  intros Hn. destruct (urlparse_dichotomy url) as [[Hr _]|[_ Hc]]; [tauto|].
  unfold parse_dataset_url. rewrite Hc. reflexivity.
Qed.

(** C5, as the source has it: [parse_huggingface_url] raises exactly when
    [urlparse] rejects the network location of the URL (a square bracket
    without its partner, or a bracketed host that the library refuses) or
    the path has fewer than two slash-separated segments, and it returns
    exactly when neither is the case.  An error of [urlparse] is passed on
    unchanged, and it is [ValueError("Invalid IPv6 URL")] for an unpaired
    bracket.  For a URL that [urlparse] accepts, the format error
    [ValueError("Invalid Hugging Face URL: ...")] is raised exactly when the
    path has fewer than two segments.  The URL
    ["https://host/onlyonesegment"] is rejected with that error. *)
Theorem parse_huggingface_url_format_error url :
  let parts := path_parts (url_path url) in
  (raises (parse_huggingface_url url) <-> host_rejected url \/ length parts < 2) /\
  (returns (parse_huggingface_url url) <-> ~ host_rejected url /\ 2 <= length parts) /\
  (forall e, urllib.urlparse url = Raise e -> parse_huggingface_url url = Raise e) /\
  (xorb (PyStr.mem "[" (url_netloc url)) (PyStr.mem "]" (url_netloc url)) = true ->
   parse_huggingface_url url = Raise (ValueError "Invalid IPv6 URL")) /\
  (~ host_rejected url ->
   (parse_huggingface_url url
      = Raise (ValueError ("Invalid Hugging Face URL: " ++ url))
    <-> length parts < 2)) /\
  parse_huggingface_url "https://host/onlyonesegment"
    = Raise (ValueError "Invalid Hugging Face URL: https://host/onlyonesegment").
Proof.
  intros parts.
  assert (Hprop : forall e, urllib.urlparse url = Raise e ->
                            parse_huggingface_url url = Raise e)
    by (intros e He; unfold parse_huggingface_url; rewrite He; reflexivity).
  assert (Hacc : ~ host_rejected url ->
                 (length parts < 2 ->
                  parse_huggingface_url url
                  = Raise (ValueError ("Invalid Hugging Face URL: " ++ url))) /\
                 (2 <= length parts -> returns (parse_huggingface_url url))).
  { intros Hn. rewrite (parse_huggingface_url_accepted url Hn). cbv zeta. fold parts.
    destruct (Nat.ltb_spec (length parts) 2) as [Hlt|Hge].
    - split; [reflexivity | lia].
    - split; [lia | intros _; eexists; reflexivity]. }
  assert (Hdec : 2 <= length parts \/ length parts < 2) by lia.
  split; [|split; [|split; [exact Hprop|split; [|split; [|reflexivity]]]]].
  - split.
    + intros [e He].
      destruct (urlparse_dichotomy url) as [[Hr _]|[Hn _]]; [left; exact Hr|].
      destruct Hdec as [Hg|Hl]; [|right; exact Hl].
      destruct (proj2 (Hacc Hn) Hg) as [t Ht]. congruence.
    + intros [Hr|Hl].
      * apply urlparse_raises_iff in Hr as [e He]. exists e. exact (Hprop e He).
      * destruct (urlparse_dichotomy url) as [[_ [e He]]|[Hn _]].
        -- exists e. exact (Hprop e He).
        -- eexists. exact (proj1 (Hacc Hn) Hl).
  - split.
    + intros [t Ht].
      destruct (urlparse_dichotomy url) as [[_ [e He]]|[Hn _]].
      * rewrite (Hprop e He) in Ht. discriminate.
      * split; [exact Hn|].
        destruct Hdec as [Hg|Hl]; [exact Hg|].
        rewrite (proj1 (Hacc Hn) Hl) in Ht. discriminate.
    + intros [Hn Hg]. exact (proj2 (Hacc Hn) Hg).
  - intros Hx. apply Hprop, unbalanced_bracket, Hx.
  - intros Hn. split; [|exact (proj1 (Hacc Hn))].
    intros He. destruct Hdec as [Hg|Hl]; [|exact Hl].
    destruct (proj2 (Hacc Hn) Hg) as [t Ht]. congruence.
Qed.

(** C6, as the source has it.  An error of [urlparse] is passed on
    unchanged.  For a link that [urlparse] accepts, the recognizer looks for
    the two host names in the text of the network location, the model host
    first: with ["huggingface.co"] in it, a path that starts with the
    segment ["datasets"] followed by at least one more segment yields the
    last path segment, and any other path raises
    [ValueError("Invalid Hugging Face dataset URL: ...")]; without it and
    with ["github.com"] in it, the link is returned as it is; with neither,
    [ValueError("Unsupported dataset URL: ...")] is raised.  Of the domains
    of the specification this keeps: a link under [huggingface.co] with the
    ["datasets"] path yields the last segment; a link under [github.com]
    whose network location does not contain ["huggingface.co"] is returned
    as it is; and the error for an unsupported link is raised only under
    neither domain. *)
Theorem parse_dataset_url_two_branches url :
  let parts := path_parts (url_path url) in
  let host := url_netloc url in
  (forall e, urllib.urlparse url = Raise e -> parse_dataset_url url = Raise e) /\
  (~ host_rejected url ->
   (PyStr.contains "huggingface.co" host = true ->
    parts !! 0 = Some "datasets" -> 2 <= length parts ->
    exists id, last parts = Some id /\ parse_dataset_url url = Ok id) /\
   (PyStr.contains "huggingface.co" host = true ->
    ~ (parts !! 0 = Some "datasets" /\ 2 <= length parts) ->
    parse_dataset_url url
      = Raise (ValueError ("Invalid Hugging Face dataset URL: " ++ url))) /\
   (PyStr.contains "huggingface.co" host = false ->
    PyStr.contains "github.com" host = true ->
    parse_dataset_url url = Ok url) /\
   (PyStr.contains "huggingface.co" host = false ->
    PyStr.contains "github.com" host = false ->
    parse_dataset_url url = Raise (ValueError ("Unsupported dataset URL: " ++ url)))) /\
  (~ host_rejected url ->
   (under_domain "huggingface.co" host = true ->
    parts !! 0 = Some "datasets" -> 2 <= length parts ->
    exists id, last parts = Some id /\ parse_dataset_url url = Ok id) /\
   (under_domain "github.com" host = true ->
    PyStr.contains "huggingface.co" host = false ->
    parse_dataset_url url = Ok url) /\
   (parse_dataset_url url = Raise (ValueError ("Unsupported dataset URL: " ++ url)) ->
    under_domain "huggingface.co" host = false /\
    under_domain "github.com" host = false)).
Proof.
  intros parts host.
  assert (Hhf : PyStr.contains "huggingface.co" host = true ->
                parts !! 0 = Some "datasets" -> 2 <= length parts ->
                ~ host_rejected url ->
                exists id, last parts = Some id /\ parse_dataset_url url = Ok id).
  { intros Hc H0 Hlen Hn. rewrite (parse_dataset_url_accepted url Hn). cbv zeta.
    fold parts host. rewrite Hc.
    destruct (datasets_path_returns parts H0 Hlen) as [-> Hl].
    eexists. split; [exact Hl | reflexivity]. }
  assert (Hgh : PyStr.contains "huggingface.co" host = false ->
                PyStr.contains "github.com" host = true ->
                ~ host_rejected url -> parse_dataset_url url = Ok url).
  { intros Hc Hg Hn. rewrite (parse_dataset_url_accepted url Hn). cbv zeta.
    fold host. rewrite Hc, Hg. reflexivity. }
  split; [|split].
  - intros e He. unfold parse_dataset_url. rewrite He. reflexivity.
  - intros Hn. split; [|split; [|split]].
    + intros Hc H0 Hlen. exact (Hhf Hc H0 Hlen Hn).
    + intros Hc Hp. rewrite (parse_dataset_url_accepted url Hn). cbv zeta.
      fold parts host. rewrite Hc, (other_path_raises parts Hp). reflexivity.
    + intros Hc Hg. exact (Hgh Hc Hg Hn).
    + intros Hc Hg. rewrite (parse_dataset_url_accepted url Hn). cbv zeta.
      fold host. rewrite Hc, Hg. reflexivity.
  - intros Hn. split; [|split].
    + intros Hu H0 Hlen.
      exact (Hhf (under_domain_contains _ _ Hu) H0 Hlen Hn).
    + intros Hu Hc. apply Hgh; [exact Hc | apply under_domain_contains, Hu | exact Hn].
    + intros He.
      assert (Hc : PyStr.contains "huggingface.co" host = false).
      { destruct (PyStr.contains "huggingface.co" host) eqn:Hc; [|reflexivity].
        rewrite (parse_dataset_url_accepted url Hn) in He. cbv zeta in He.
        fold parts host in He. rewrite Hc in He.
        destruct (_ || _); discriminate He. }
      split.
      * destruct (under_domain "huggingface.co" host) eqn:Hu; [|reflexivity].
        rewrite (under_domain_contains _ _ Hu) in Hc. discriminate.
      * destruct (under_domain "github.com" host) eqn:Hu; [|reflexivity].
        rewrite (Hgh Hc (under_domain_contains _ _ Hu) Hn) in He. discriminate.
Qed.

End UrlClassifier.

(** C5, as the specification words it, fails: the path of
    ["https://[host/ns/repo"] has the two segments ["ns"] and ["repo"], and
    the call raises [ValueError("Invalid IPv6 URL")] for the square bracket
    without its partner in the host. *)
Lemma parse_huggingface_url_two_segments_refuted :
  ~ (forall (lib : UrlLib) url, @segments_as_specified lib url).
Proof.
  intros Hclaim.
  destruct (Hclaim lenient_urllib "https://[host/ns/repo") as [_ Hret].
  destruct Hret as [t Ht]; [vm_compute; lia|].
  vm_compute in Ht. discriminate Ht.
Qed.

(** C6, as the specification words it, fails: ["notgithub.com"] is under
    neither of the two domains, and the link
    ["https://notgithub.com/a/b"] is returned as it is, because the text
    ["github.com"] occurs in its network location. *)
Lemma parse_dataset_url_domains_refuted :
  ~ (forall (lib : UrlLib) url, url <> "" -> @recognizer_as_specified lib url).
Proof.
  intros Hclaim.
  destruct (Hclaim lenient_urllib "https://notgithub.com/a/b") as (_ & _ & Hother);
    [discriminate|].
  destruct Hother as [e He]; [vm_compute; reflexivity | vm_compute; reflexivity |].
  vm_compute in He. discriminate He.
Qed.

(** C3, as the specification words it, fails on the specification's own
    example: in ["https://host/ns/repo/tree/v2"] the fourth path segment is
    ["v2"], not ["tree"], and the revision returned is ["v2"], not
    ["main"]. *)
Lemma revision_as_specified_refuted :
  ~ (forall (lib : UrlLib) url parsed ns repo rev,
       urllib.urlparse url = Ok parsed ->
       parse_huggingface_url url = Ok (ns, repo, rev) ->
       rev = revision_as_specified (path_parts (urllib.path parsed))).
Proof.
  intros Hclaim.
  specialize (Hclaim lenient_urllib "https://host/ns/repo/tree/v2"
                (urllib.mkParseResult "https" "host" "/ns/repo/tree/v2" "" "" "")
                "ns" "repo" "v2" eq_refl eq_refl).
  discriminate Hclaim.
Qed.

Lemma parse_huggingface_url_revision_witness :
  @parse_huggingface_url lenient_urllib "https://huggingface.co/g/m/tree/v1/x"
    = Ok ("g", "m", "v1") /\
  exists parsed,
    @urllib.urlparse lenient_urllib "https://huggingface.co/g/m/tree/v1/x" = Ok parsed /\
    let parts := path_parts (urllib.path parsed) in
    parts !! 0 = Some "g" /\ parts !! 1 = Some "m" /\
    (parts !! 2 = Some "tree" -> is_Some (parts !! 3) -> parts !! 3 = Some "v1") /\
    (~ (parts !! 2 = Some "tree" /\ is_Some (parts !! 3)) -> "v1" = "main").
Proof.
  split; [reflexivity|].
  apply (@parse_huggingface_url_revision lenient_urllib
           "https://huggingface.co/g/m/tree/v1/x" "g" "m" "v1").
  reflexivity.
Defined.

(** * Properties of the manifest parser *)

Section StringFacts.

Lemma split_length sep s : length (PyStr.split sep s) = S (count_char sep s).
Proof.
  induction s as [|a s IH]; simpl; [reflexivity|].
  destruct (Ascii.eqb a sep); simpl.
  - rewrite IH. reflexivity.
  - destruct (PyStr.split sep s) as [|x xs]; simpl in *; [discriminate | exact IH].
Qed.

Lemma count_char_lstrip p c s :
  p c = false -> count_char c (PyStr.lstrip_with p s) = count_char c s.
Proof.
  intros Hc. induction s as [|a s IH]; simpl; [reflexivity|].
  destruct (p a) eqn:Ha; simpl; [|reflexivity].
  rewrite IH. destruct (Ascii.eqb_spec a c) as [->|_]; [congruence | reflexivity].
Qed.

Lemma count_char_rstrip p c s :
  p c = false -> count_char c (PyStr.rstrip_with p s) = count_char c s.
Proof.
  intros Hc. induction s as [|a s IH]; simpl; [reflexivity|].
  destruct (PyStr.rstrip_with p s) as [|b r]; simpl in *.
  - destruct (p a) eqn:Ha; simpl.
    + rewrite <- IH. destruct (Ascii.eqb_spec a c) as [->|_]; [congruence | reflexivity].
    + rewrite <- IH. reflexivity.
  - rewrite <- IH. reflexivity.
Qed.

Lemma count_char_strip c s :
  PyStr.isspace c = false -> count_char c (PyStr.strip s) = count_char c s.
Proof.
  intros Hc. unfold PyStr.strip, PyStr.strip_with.
  rewrite count_char_rstrip, count_char_lstrip; auto.
Qed.

Lemma count_char_nonempty c s : 0 < count_char c s -> PyStr.nonempty s = true.
Proof. destruct s; simpl; [lia | reflexivity]. Qed.

Lemma line_parts_length line :
  length (line_parts line) = Nat.max 3 (S (count_char "," line)).
Proof.
  unfold line_parts.
  rewrite length_app, repeat_length, length_map, split_length. lia.
Qed.

Lemma unpack3_too_many parts : 3 < length parts -> raises (unpack3 parts).
Proof.
  destruct parts as [|a [|b [|c [|d rest]]]]; simpl; try lia.
  intros _. eexists; reflexivity.
Qed.

Lemma nonempty_true s : PyStr.nonempty s = true <-> s <> "".
Proof. destruct s; simpl; split; congruence. Qed.

Lemma nonempty_false s : PyStr.nonempty s = false <-> s = "".
Proof. destruct s; simpl; split; congruence. Qed.

End StringFacts.

Section ManifestParser.
Context `{UrlLib}.

Lemma process_line_blank line :
  nonblank line = false -> process_line line = Ok None.
Proof. unfold nonblank, process_line. intros ->. reflexivity. Qed.

Lemma process_line_fields line c d m :
  nonblank line = true ->
  line_parts (PyStr.strip line) = [c; d; m] ->
  process_line line =
    let* _ :=
      if PyStr.nonempty m then parse_huggingface_url m
      else Ok (EmptyString, EmptyString, "main") in
    let* dataset :=
      if PyStr.nonempty d then
        let* data_repo := parse_dataset_url d in
        Ok (Some (Dataset.mk d "" data_repo ""))
      else Ok None in
    let* model :=
      if PyStr.nonempty m then
        let* '(ns, rp, rev) := parse_huggingface_url m in
        Ok (Some (Model.mk m ns rp rev))
      else Ok None in
    Ok (Some (mkProjectGroup
                (if PyStr.nonempty c then Some (Code.mk c "") else None)
                dataset model)).
Proof.
  unfold nonblank, process_line. intros -> ->. reflexivity.
Qed.

Lemma process_line_too_many line :
  nonblank line = true ->
  3 < length (line_parts (PyStr.strip line)) ->
  raises (process_line line).
Proof.
  unfold nonblank, process_line. intros -> Hlen. simpl.
  destruct (unpack3_too_many _ Hlen) as [e ->]. eexists; reflexivity.
Qed.

Lemma for_lines_raises lines acc line :
  line ∈ lines -> raises (process_line line) -> raises (for_lines lines acc).
Proof.
  intros Hin [e He]. revert acc.
  induction lines as [|other rest IH]; intros acc; simpl.
  - inversion Hin.
  - apply elem_of_cons in Hin as [<-|Hin].
    + rewrite He. eexists; reflexivity.
    + destruct (process_line other) as [[g|]|e']; simpl;
        [apply IH, Hin | apply IH, Hin | eexists; reflexivity].
Qed.

Lemma line_parts_fields line :
  line_parts (PyStr.strip line)
  = (line_fields line ++ repeat "" (3 - length (line_fields line)))%list.
Proof. reflexivity. Qed.

Lemma decode_ascii_inv bytes text : decode_ascii bytes = Ok text -> text = bytes.
Proof. unfold decode_ascii. destruct (PyStr.all _ _); congruence. Qed.

(** The loop body on three fields whose links are accepted. *)
Lemma process_fields_returns line c d m :
  nonblank line = true ->
  line_parts (PyStr.strip line) = [c; d; m] ->
  (m <> "" -> returns (parse_huggingface_url m)) ->
  (d <> "" -> returns (parse_dataset_url d)) ->
  exists g, process_line line = Ok (Some g) /\ group_of_fields c d m g.
Proof.
  intros Hb Hparts Hm Hd.
  rewrite (process_line_fields line c d m Hb Hparts).
  unfold group_of_fields.
  destruct m as [|m0 m']; destruct d as [|d0 d'].
  - eexists; split; [reflexivity|].
    destruct c; simpl; repeat split; congruence.
  - destruct Hd as [data_repo Hrepo]; [discriminate|].
    eexists; split; [simpl; rewrite Hrepo; reflexivity|].
    destruct c; simpl; repeat split; try congruence; intros _; eauto.
  - destruct Hm as [[[ns rp] rev] Hurl]; [discriminate|].
    eexists; split; [simpl; rewrite Hurl; reflexivity|].
    destruct c; simpl; repeat split; try congruence; intros _; eauto 6.
  - destruct Hm as [[[ns rp] rev] Hurl]; [discriminate|].
    destruct Hd as [data_repo Hrepo]; [discriminate|].
    eexists; split; [simpl; rewrite Hurl; simpl; rewrite Hrepo; reflexivity|].
    destruct c; simpl; repeat split; try congruence; intros _; eauto 6.
Qed.

Lemma process_line_well_formed line :
  well_formed_line line -> nonblank line = true ->
  exists g, process_line line = Ok (Some g) /\ group_of_line line g.
Proof.
  intros (Hlen & Hm & Hd) Hb. unfold group_of_line.
  pose proof (line_parts_fields line) as Hparts.
  destruct (line_fields line) as [|a [|b [|c [|x rest]]]] eqn:Hf;
    simpl in Hlen, Hparts; try lia.
  - destruct (process_fields_returns line "" "" "" Hb Hparts) as [g [Hg Hgrp]];
      try congruence.
    exists g. split; [exact Hg|]. exists "", "", "". split; [reflexivity | exact Hgrp].
  - destruct (process_fields_returns line a "" "" Hb Hparts) as [g [Hg Hgrp]];
      try congruence.
    exists g. split; [exact Hg|]. exists a, "", "". split; [reflexivity | exact Hgrp].
  - destruct (process_fields_returns line a b "" Hb Hparts) as [g [Hg Hgrp]];
      try congruence.
    { intros Hne. apply Hd; [reflexivity | exact Hne]. }
    exists g. split; [exact Hg|]. exists a, b, "". split; [reflexivity | exact Hgrp].
  - destruct (process_fields_returns line a b c Hb Hparts) as [g [Hg Hgrp]].
    { intros Hne. apply Hm; [reflexivity | exact Hne]. }
    { intros Hne. apply Hd; [reflexivity | exact Hne]. }
    exists g. split; [exact Hg|]. exists a, b, c. split; [reflexivity | exact Hgrp].
Qed.

Lemma for_lines_well_formed lines acc :
  Forall well_formed_line lines ->
  exists groups,
    for_lines lines acc = Ok (acc ++ groups)%list /\
    Forall2 (fun line g => process_line line = Ok (Some g) /\ group_of_line line g)
            (List.filter nonblank lines) groups.
Proof.
  intros Hall. revert acc.
  induction Hall as [|line rest Hwf _ IH]; intros acc; simpl.
  - exists []. rewrite app_nil_r. split; [reflexivity | constructor].
  - destruct (nonblank line) eqn:Hb.
    + destruct (process_line_well_formed line Hwf Hb) as [g [Hg Hgrp]].
      destruct (IH (acc ++ [g])%list) as [groups [Hrun Hrel]].
      exists (g :: groups). rewrite Hg. simpl. rewrite Hrun, <- app_assoc.
      split; [reflexivity|]. constructor; [split|]; assumption.
    + rewrite (process_line_blank line Hb). simpl. apply IH.
Qed.

Lemma malformed_link_raises line :
  malformed_model_link line \/ malformed_dataset_link line ->
  nonblank line = true /\ raises (process_line line).
Proof.
  intros Hbad.
  assert (Hb : nonblank line = true).
  { destruct (nonblank line) eqn:Hb; [reflexivity|]. exfalso.
    unfold nonblank in Hb. apply nonempty_false in Hb.
    destruct Hbad as [(m & Hm & Hne & _) | (d & Hd & Hne & _)];
      rewrite Hb in *; simpl in *; congruence. }
  split; [exact Hb|].
  unfold malformed_model_link, malformed_dataset_link in Hbad.
  destruct (line_parts (PyStr.strip line)) as [|c [|d [|m [|x rest]]]] eqn:Hparts.
  - destruct Hbad as [(m & Hm & _) | (d & Hd & _)]; simpl in *; discriminate.
  - destruct Hbad as [(m & Hm & _) | (d & Hd & _)]; simpl in *; discriminate.
  - destruct Hbad as [(m & Hm & _) | (d0 & Hd & Hne & [e He])];
      [simpl in *; discriminate|].
    pose proof (line_parts_length (PyStr.strip line)) as Hlen.
    rewrite Hparts in Hlen. simpl in Hlen. lia.
  - rewrite (process_line_fields line c d m Hb Hparts).
    destruct Hbad as [(m0 & Hm & Hne & [e He]) | (d0 & Hd & Hne & [e He])].
    + injection Hm as <-. apply nonempty_true in Hne. rewrite Hne, He.
      eexists; reflexivity.
    + injection Hd as <-. apply nonempty_true in Hne. rewrite Hne, He.
      destruct (if PyStr.nonempty m then _ else _) as [?|e']; simpl;
        eexists; reflexivity.
  - apply process_line_too_many; [exact Hb|]. rewrite Hparts. simpl. lia.
Qed.

Lemma too_many_fields_raises line :
  3 <= count_char "," line ->
  nonblank line = true /\ 3 < length (line_fields line) /\ raises (process_line line).
Proof.
  intros Hc.
  assert (Hs : count_char "," (PyStr.strip line) = count_char "," line)
    by (apply count_char_strip; reflexivity).
  assert (Hb : nonblank line = true).
  { unfold nonblank. apply (count_char_nonempty ","). lia. }
  assert (Hlen : 3 < length (line_fields line)).
  { unfold line_fields. rewrite length_map, split_length. lia. }
  repeat split; try assumption.
  apply process_line_too_many; [exact Hb|].
  rewrite line_parts_length. lia.
Qed.

(** C7, as the source has it: when the file decodes as ASCII and all its
    lines are well formed, the parse
    returns one group per non-blank line, in line order; the fields of a line
    are padded with empty strings up to three, and an empty field gives an
    absent component.  The line [",,https://huggingface.co/openai-community/gpt2"]
    gives a group with no code, no dataset and the model
    [openai-community/gpt2] at revision ["main"]. *)
Theorem parse_project_file_well_formed fs filepath bytes :
  fs filepath = Some bytes ->
  decode_ascii bytes = Ok bytes ->
  Forall well_formed_line (file_lines bytes) ->
  (exists groups,
     parse_project_file fs filepath = Ok groups /\
     length groups = length (List.filter nonblank (file_lines bytes)) /\
     Forall2 (fun line g => process_line line = Ok (Some g) /\ group_of_line line g)
             (List.filter nonblank (file_lines bytes)) groups) /\
  process_line ",,https://huggingface.co/openai-community/gpt2"
  = Ok (Some (mkProjectGroup None None
                (Some (Model.mk "https://huggingface.co/openai-community/gpt2"
                         "openai-community" "gpt2" "main")))).
Proof.
  intros Hfs Hdec Hall. split; [|reflexivity].
  unfold parse_project_file. rewrite Hfs, Hdec. simpl.
  destruct (for_lines_well_formed (file_lines bytes) [] Hall) as [groups [Hrun Hrel]].
  exists groups. rewrite Hrun. simpl.
  split; [reflexivity|]. split; [|exact Hrel].
  symmetry. apply (Forall2_length _ _ _ Hrel).
Qed.

(** C8: a line whose model link or dataset link is rejected by its
    recognizer makes the whole parse raise; no list of groups is returned,
    whatever the other lines are. *)
Theorem parse_project_file_malformed_link fs filepath bytes line :
  fs filepath = Some bytes ->
  line ∈ file_lines bytes ->
  malformed_model_link line \/ malformed_dataset_link line ->
  raises (parse_project_file fs filepath) /\
  ~ returns (parse_project_file fs filepath).
Proof.
  intros Hfs Hin Hbad.
  assert (Hr : raises (parse_project_file fs filepath)).
  { unfold parse_project_file. rewrite Hfs.
    destruct (decode_ascii bytes) as [text|e] eqn:Hdec; simpl;
      [|eexists; reflexivity].
    apply decode_ascii_inv in Hdec as ->.
    apply (for_lines_raises _ _ line Hin).
    apply malformed_link_raises, Hbad. }
  split; [exact Hr|].
  destruct Hr as [e He]. intros [groups Hg]. congruence.
Qed.

(** C10: a line with three or more commas has more than three fields; the
    unpacking [code_link, dataset_link, model_link = parts] raises and the
    whole parse fails. *)
Theorem parse_project_file_too_many_fields fs filepath bytes line :
  fs filepath = Some bytes ->
  line ∈ file_lines bytes ->
  3 <= count_char "," line ->
  3 < length (line_fields line) /\
  raises (parse_project_file fs filepath) /\
  ~ returns (parse_project_file fs filepath).
Proof.
  intros Hfs Hin Hc.
  destruct (too_many_fields_raises line Hc) as (Hb & Hlen & Hraise).
  assert (Hr : raises (parse_project_file fs filepath)).
  { unfold parse_project_file. rewrite Hfs.
    destruct (decode_ascii bytes) as [text|e] eqn:Hdec; simpl;
      [|eexists; reflexivity].
    apply decode_ascii_inv in Hdec as ->.
    apply (for_lines_raises _ _ line Hin Hraise). }
  repeat split; try assumption.
  destruct Hr as [e He]. intros [groups Hg]. congruence.
Qed.

End ManifestParser.

(** ** Concrete runs of the URL classifier and the manifest parser *)

Lemma parse_huggingface_url_format_error_witness :
  raises (@parse_huggingface_url lenient_urllib "https://host/onlyonesegment") /\
  returns (@parse_huggingface_url lenient_urllib "https://host/ns/repo") /\
  @parse_huggingface_url lenient_urllib "https://[host/ns/repo"
    = Raise (ValueError "Invalid IPv6 URL").
Proof.
  split; [|split].
  - apply (@parse_huggingface_url_format_error lenient_urllib
             "https://host/onlyonesegment").
    right. vm_compute. lia.
  - apply (@parse_huggingface_url_format_error lenient_urllib "https://host/ns/repo").
    split; [|vm_compute; lia].
    intros [Hx|[Hx _]]; vm_compute in Hx; discriminate Hx.
  - apply (@parse_huggingface_url_format_error lenient_urllib "https://[host/ns/repo").
    vm_compute. reflexivity.
Defined.

Lemma parse_dataset_url_two_branches_witness :
  (exists id,
     last ["datasets"; "stanfordnlp"; "imdb"] = Some id /\
     @parse_dataset_url lenient_urllib
       "https://huggingface.co/datasets/stanfordnlp/imdb" = Ok id) /\
  @parse_dataset_url lenient_urllib "https://github.com/zalandoresearch/fashion-mnist"
    = Ok "https://github.com/zalandoresearch/fashion-mnist".
Proof.
  split.
  - apply (@parse_dataset_url_two_branches lenient_urllib
             "https://huggingface.co/datasets/stanfordnlp/imdb").
    + intros [Hx|[Hx _]]; vm_compute in Hx; discriminate Hx.
    + vm_compute. reflexivity.
    + vm_compute. reflexivity.
    + vm_compute. lia.
  - apply (@parse_dataset_url_two_branches lenient_urllib
             "https://github.com/zalandoresearch/fashion-mnist").
    + intros [Hx|[Hx _]]; vm_compute in Hx; discriminate Hx.
    + vm_compute. reflexivity.
    + vm_compute. reflexivity.
Defined.

Ltac well_formed_by_evaluation :=
  split; [vm_compute; lia|];
  split; intros x Hx Hne; vm_compute in Hx;
    try discriminate Hx;
    injection Hx as <-; try congruence; eexists; vm_compute; reflexivity.

Lemma manifest_ok_well_formed :
  Forall (@well_formed_line lenient_urllib) (file_lines manifest_ok).
Proof.
  assert (Hlines :
    file_lines manifest_ok
    = [ ",,https://huggingface.co/openai-community/gpt2" ++ nl;
        "   " ++ nl;
        "https://github.com/a/b,https://huggingface.co/datasets/stanfordnlp/imdb"
        ++ nl ])
    by (vm_compute; reflexivity).
  rewrite Hlines.
  constructor; [well_formed_by_evaluation|].
  constructor; [well_formed_by_evaluation|].
  constructor; [well_formed_by_evaluation|].
  constructor.
Defined.

Lemma parse_project_file_well_formed_witness :
  single_file "urls.txt" manifest_ok "urls.txt" = Some manifest_ok /\
  decode_ascii manifest_ok = Ok manifest_ok /\
  Forall (@well_formed_line lenient_urllib) (file_lines manifest_ok) /\
  exists groups,
    @parse_project_file lenient_urllib (single_file "urls.txt" manifest_ok) "urls.txt"
      = Ok groups /\
    length groups = 2.
Proof.
  split; [reflexivity|]. split; [reflexivity|]. split; [exact manifest_ok_well_formed|].
  destruct (@parse_project_file_well_formed lenient_urllib
              (single_file "urls.txt" manifest_ok) "urls.txt" manifest_ok
              eq_refl eq_refl manifest_ok_well_formed)
    as [[groups [Hrun [Hlen _]]] _].
  exists groups. split; [exact Hrun | exact Hlen].
Defined.

Lemma manifest_non_ascii_well_formed :
  Forall (@well_formed_line lenient_urllib) (file_lines manifest_non_ascii).
Proof.
  assert (Hlines : file_lines manifest_non_ascii = [manifest_non_ascii])
    by (vm_compute; reflexivity).
  rewrite Hlines.
  constructor; [well_formed_by_evaluation | constructor].
Qed.

(** C7, as the specification words it, fails: every line of a manifest can
    be well formed and the parse still raises, because the file is opened
    with [encoding="ASCII"] and a byte above 127, here in a code link that
    no recognizer looks at, makes the reader raise [UnicodeDecodeError]. *)
Lemma parse_project_file_well_formed_any_bytes_refuted :
  ~ (forall (lib : UrlLib) fs filepath bytes,
       fs filepath = Some bytes ->
       Forall well_formed_line (file_lines bytes) ->
       exists groups,
         parse_project_file fs filepath = Ok groups /\
         length groups = length (List.filter nonblank (file_lines bytes)) /\
         Forall2 (fun line g => process_line line = Ok (Some g) /\ group_of_line line g)
                 (List.filter nonblank (file_lines bytes)) groups).
Proof.
  intros Hclaim.
  destruct (Hclaim lenient_urllib (single_file "urls.txt" manifest_non_ascii)
              "urls.txt" manifest_non_ascii eq_refl manifest_non_ascii_well_formed)
    as (groups & Hrun & _).
  vm_compute in Hrun. discriminate Hrun.
Qed.

Lemma parse_project_file_malformed_link_witness :
  (",,https://host/onlyonesegment" ++ nl) ∈ file_lines manifest_bad_link /\
  @malformed_model_link lenient_urllib (",,https://host/onlyonesegment" ++ nl) /\
  raises (@parse_project_file lenient_urllib
            (single_file "urls.txt" manifest_bad_link) "urls.txt").
Proof.
  assert (Hin : (",,https://host/onlyonesegment" ++ nl) ∈ file_lines manifest_bad_link).
  { apply list_elem_of_In. vm_compute. right. left. reflexivity. }
  assert (Hbad : @malformed_model_link lenient_urllib
                   (",,https://host/onlyonesegment" ++ nl)).
  { exists "https://host/onlyonesegment".
    split; [reflexivity|]. split; [discriminate|]. eexists; reflexivity. }
  split; [exact Hin|]. split; [exact Hbad|].
  apply (@parse_project_file_malformed_link lenient_urllib
           (single_file "urls.txt" manifest_bad_link) "urls.txt" manifest_bad_link
           (",,https://host/onlyonesegment" ++ nl) eq_refl Hin (or_introl Hbad)).
Defined.

Lemma parse_project_file_too_many_fields_witness :
  ("a,b,c,d" ++ nl) ∈ file_lines manifest_four_fields /\
  3 <= count_char "," ("a,b,c,d" ++ nl) /\
  raises (@parse_project_file lenient_urllib
            (single_file "urls.txt" manifest_four_fields) "urls.txt").
Proof.
  assert (Hin : ("a,b,c,d" ++ nl) ∈ file_lines manifest_four_fields).
  { apply list_elem_of_In. vm_compute. right. left. reflexivity. }
  assert (Hc : 3 <= count_char "," ("a,b,c,d" ++ nl)) by (vm_compute; lia).
  split; [exact Hin|]. split; [exact Hc|].
  apply (@parse_project_file_too_many_fields lenient_urllib
           (single_file "urls.txt" manifest_four_fields) "urls.txt"
           manifest_four_fields ("a,b,c,d" ++ nl) eq_refl Hin Hc).
Defined.

(** * Properties of the license metric *)

Section LicenseProperties.

Import LicenseScore.

Context {Sink : Type}.
Variable put : log_entry -> Sink -> option exn * Sink.

(** A log sink whose [put] does not raise, in any state and on any entry. *)
Lemma pbind_returns_inv {A B : Type} (m : prog (Sink:=Sink) A) (k : A -> prog B) q b q' :
  pbind m k q = (Ok b, q') ->
  exists a q1, m q = (Ok a, q1) /\ k a q1 = (Ok b, q').
Proof.
  unfold pbind. destruct (m q) as [[a|e] q1]; [|discriminate].
  intros Hk. exists a, q1. split; [reflexivity | exact Hk].
Qed.

Lemma pbind_step {A B : Type} (m : prog (Sink:=Sink) A) (k : A -> prog B) q a q1 :
  m q = (Ok a, q1) -> pbind m k q = k a q1.
Proof. unfold pbind. intros ->. reflexivity. Qed.

Section Call.

Variable pid : nat.
Variables start_time end_time : Q.
Variable license_info : option string.
Variable verbosity : Z.

Lemma when_informational_returns entry q :
  logging_safe put verbosity ->
  exists q', when (informational verbosity) (log_queue_put put entry) q = (Ok tt, q').
Proof.
  intros [Hquiet | Hsafe]; unfold when, informational.
  - destruct (Z.leb_spec 1 verbosity); [lia|]. eexists; reflexivity.
  - destruct (1 <=? verbosity)%Z; [|eexists; reflexivity].
    unfold log_queue_put. specialize (Hsafe entry q).
    destruct (put entry q) as [o q']. simpl in Hsafe. subst o.
    eexists; reflexivity.
Qed.

Lemma tier_returns_inv s message q x q' :
  tier put pid verbosity s message q = (Ok x, q') -> x = s.
Proof.
  unfold tier. intros Hrun.
  apply pbind_returns_inv in Hrun as (_ & q1 & _ & Hpure).
  unfold pure in Hpure. congruence.
Qed.

Lemma tier_returns s message q :
  logging_safe put verbosity -> exists q', tier put pid verbosity s message q = (Ok s, q').
Proof.
  intros Hsafe. unfold tier.
  destruct (when_informational_returns (LogInfo pid message) q Hsafe) as [q' Hq].
  exists q'. rewrite (pbind_step _ _ _ _ _ Hq). reflexivity.
Qed.

(** The entry logged at the head of the [try] block. *)
Lemma try_body_arm :
  exists s message,
    in_unit_interval s /\
    (any_in permissive_licenses (license_text license_info) = true -> s = 1.0%Q) /\
    try_body put pid license_info verbosity
    = pbind (when (informational verbosity)
                  (log_queue_put put (found_entry pid license_info)))
            (fun _ => tier put pid verbosity s message).
Proof.
  unfold try_body, found_entry. cbv zeta. fold (license_text license_info).
  replace (if truthy license_info
           then log_queue_put put (LogLicenseFound pid license_info)
           else log_queue_put put (LogNoLicense pid))
    with (log_queue_put put
            (if truthy license_info then LogLicenseFound pid license_info
             else LogNoLicense pid))
    by (destruct (truthy license_info); reflexivity).
  repeat match goal with
         | |- context [if ?b then tier _ _ _ _ _ else _] => destruct b
         end;
    eexists _, _; (split; [|split; [|reflexivity]]);
    try (intros; congruence); try reflexivity;
    unfold in_unit_interval, Qle; simpl; lia.
Qed.

Lemma try_body_returns_inv q s q' :
  try_body put pid license_info verbosity q = (Ok s, q') ->
  in_unit_interval s /\
  (any_in permissive_licenses (license_text license_info) = true -> s = 1.0%Q).
Proof.
  destruct try_body_arm as (s0 & message & Hrange & Hperm & ->).
  intros Hrun. apply pbind_returns_inv in Hrun as (_ & q1 & _ & Htier).
  apply tier_returns_inv in Htier as ->. split; assumption.
Qed.

Lemma try_body_returns q :
  logging_safe put verbosity ->
  exists s q',
    try_body put pid license_info verbosity q = (Ok s, q') /\
    in_unit_interval s /\
    (any_in permissive_licenses (license_text license_info) = true -> s = 1.0%Q).
Proof.
  intros Hsafe.
  destruct try_body_arm as (s & message & Hrange & Hperm & ->).
  destruct (when_informational_returns (found_entry pid license_info) q Hsafe) as [q1 Hq1].
  destruct (tier_returns s message q1 Hsafe) as [q' Hq'].
  exists s, q'. rewrite (pbind_step _ _ _ _ _ Hq1).
  split; [exact Hq' | split; assumption].
Qed.

Lemma handler_returns_inv e q s q' :
  handler put pid license_info verbosity e q = (Ok s, q') -> s = 0.5%Q.
Proof.
  unfold handler. intros Hrun.
  apply pbind_returns_inv in Hrun as (_ & q1 & _ & Hpure).
  unfold pure in Hpure. congruence.
Qed.

Lemma latency_nonneg : (start_time <= end_time -> 0 <= end_time - start_time)%Q.
Proof. intros Hle. unfold Qminus. apply Qle_minus_iff in Hle. exact Hle. Qed.

(** Whatever the sink does, a returned score is between 0 and 1 and the
    returned latency is the difference of the two clock readings. *)
Lemma calculate_license_score_returns_inv q score time_taken q' :
  calculate_license_score put pid start_time end_time license_info verbosity q
    = (Ok (score, time_taken), q') ->
  in_unit_interval score /\ time_taken = (end_time - start_time)%Q.
Proof.
  unfold calculate_license_score. intros Hrun.
  apply pbind_returns_inv in Hrun as (_ & q1 & _ & Hrun).
  apply pbind_returns_inv in Hrun as (s & q2 & Htry & Hrun).
  apply pbind_returns_inv in Hrun as (_ & q3 & _ & Hpure).
  unfold pure in Hpure. injection Hpure as <- <- _.
  split; [|reflexivity].
  unfold try_except in Htry.
  destruct (try_body put pid license_info verbosity q1) as [[s0|e] q1'] eqn:Hbody.
  - injection Htry as <- _. apply (try_body_returns_inv _ _ _ Hbody).
  - destruct (is_Exception e); [|discriminate].
    apply handler_returns_inv in Htry as ->.
    unfold in_unit_interval, Qle; simpl; lia.
Qed.

(** When no [put] can raise the function returns, with the score of the
    arm that matches. *)
Lemma calculate_license_score_returns q :
  logging_safe put verbosity ->
  exists score q',
    calculate_license_score put pid start_time end_time license_info verbosity q
      = (Ok (score, (end_time - start_time)%Q), q') /\
    (any_in permissive_licenses (license_text license_info) = true -> score = 1.0%Q).
Proof.
  intros Hsafe. unfold calculate_license_score.
  destruct (when_informational_returns (LogStarting pid license_info) q Hsafe)
    as [q1 Hq1].
  destruct (try_body_returns q1 Hsafe) as (s & q2 & Hbody & _ & Hperm).
  destruct (when_informational_returns
              (LogFinished pid s (end_time - start_time)%Q) q2 Hsafe) as [q3 Hq3].
  exists s, q3. split; [|exact Hperm].
  rewrite (pbind_step _ _ _ _ _ Hq1).
  assert (Htry : try_except (try_body put pid license_info verbosity)
                   (handler put pid license_info verbosity) q1 = (Ok s, q2))
    by (unfold try_except; rewrite Hbody; reflexivity).
  rewrite (pbind_step _ _ _ _ _ Htry).
  rewrite (pbind_step _ _ _ _ _ Hq3). reflexivity.
Qed.

(** An error caught by the [except] clause gives the fallback score. *)
Lemma calculate_license_score_fallback q q1 e q2 q3 q4 :
  when (informational verbosity)
       (log_queue_put put (LogStarting pid license_info)) q = (Ok tt, q1) ->
  try_body put pid license_info verbosity q1 = (Raise e, q2) ->
  is_Exception e = true ->
  when (informational verbosity)
       (log_queue_put put (LogCriticalError pid license_info e)) q2 = (Ok tt, q3) ->
  when (informational verbosity)
       (log_queue_put put (LogFinished pid 0.5 (end_time - start_time))) q3
    = (Ok tt, q4) ->
  calculate_license_score put pid start_time end_time license_info verbosity q
    = (Ok (0.5, end_time - start_time), q4)%Q.
Proof.
  intros Hstart Hbody Hexn Hcrit Hfin. unfold calculate_license_score.
  rewrite (pbind_step _ _ _ _ _ Hstart).
  assert (Htry : try_except (try_body put pid license_info verbosity)
                   (handler put pid license_info verbosity) q1 = (Ok 0.5%Q, q3)).
  { unfold try_except. rewrite Hbody, Hexn. unfold handler.
    rewrite (pbind_step _ _ _ _ _ Hcrit). reflexivity. }
  rewrite (pbind_step _ _ _ _ _ Htry).
  rewrite (pbind_step _ _ _ _ _ Hfin). reflexivity.
Qed.

(** C2, as the source has it: with clock readings that do not go backwards,
    every result that [calculate_license_score] returns has a score between
    0 and 1 and a latency of at least 0, whatever the license, the verbosity
    and the log sink; the function does return when it is silent
    ([verbosity < 1]) or when [put] never raises; and an exception caught by
    the [try] block gives the fallback score 0.5, provided the remaining
    calls of [put] succeed. *)
Theorem calculate_license_score_result q :
  (start_time <= end_time)%Q ->
  (forall score time_taken q',
     calculate_license_score put pid start_time end_time license_info verbosity q
       = (Ok (score, time_taken), q') ->
     in_unit_interval score /\ (0 <= time_taken)%Q) /\
  (logging_safe put verbosity ->
   exists score time_taken q',
     calculate_license_score put pid start_time end_time license_info verbosity q
       = (Ok (score, time_taken), q') /\
     in_unit_interval score /\ (0 <= time_taken)%Q) /\
  (forall q1 e q2 q3 q4,
     when (informational verbosity)
          (log_queue_put put (LogStarting pid license_info)) q = (Ok tt, q1) ->
     try_body put pid license_info verbosity q1 = (Raise e, q2) ->
     is_Exception e = true ->
     when (informational verbosity)
          (log_queue_put put (LogCriticalError pid license_info e)) q2 = (Ok tt, q3) ->
     when (informational verbosity)
          (log_queue_put put (LogFinished pid 0.5 (end_time - start_time))) q3
       = (Ok tt, q4) ->
     calculate_license_score put pid start_time end_time license_info verbosity q
       = (Ok (0.5, end_time - start_time), q4)%Q).
Proof.
  intros Hclock. split; [|split].
  - intros score time_taken q' Hrun.
    apply calculate_license_score_returns_inv in Hrun as [Hrange ->].
    split; [exact Hrange | exact (latency_nonneg Hclock)].
  - intros Hsafe.
    destruct (calculate_license_score_returns q Hsafe) as (score & q' & Hrun & _).
    exists score, (end_time - start_time)%Q, q'.
    split; [exact Hrun|].
    split; [|exact (latency_nonneg Hclock)].
    apply (calculate_license_score_returns_inv _ _ _ _ Hrun).
  - apply calculate_license_score_fallback.
Qed.

End Call.

(** C9, as the source has it: for the license ["apache-2.0"], when the
    function is silent or [put] never raises, the result is the score 1.0
    with the latency [end_time - start_time], which is at least 0 when the
    clock did not go backwards. *)
Theorem calculate_license_score_apache pid start_time end_time verbosity q :
  logging_safe put verbosity ->
  (start_time <= end_time)%Q ->
  exists q',
    calculate_license_score put pid start_time end_time (Some "apache-2.0") verbosity q
      = (Ok (1.0, end_time - start_time), q')%Q /\
    (0 <= end_time - start_time)%Q.
Proof.
  intros Hsafe Hclock.
  destruct (calculate_license_score_returns pid start_time end_time
              (Some "apache-2.0") verbosity q Hsafe) as (score & q' & Hrun & Hperm).
  rewrite (Hperm eq_refl) in Hrun.
  exists q'. split; [exact Hrun | exact (latency_nonneg _ _ Hclock)].
Qed.

End LicenseProperties.

(** C2 as stated fails: with [verbosity = 1] and a closed
    [multiprocessing.Queue] as log sink, the first [put], which is outside
    the [try] block, raises and no result is returned. *)
Lemma calculate_license_score_any_sink_refuted :
  ~ (forall (Sink : Type) (put : log_entry -> Sink -> option exn * Sink)
            (pid : nat) (start_time end_time : Q)
            (license_info : option string) (verbosity : Z) (q : Sink),
       (start_time <= end_time)%Q ->
       exists score time_taken q',
         LicenseScore.calculate_license_score put pid start_time end_time
           license_info verbosity q = (Ok (score, time_taken), q') /\
         in_unit_interval score /\ (0 <= time_taken)%Q).
Proof.
  intros Hclaim.
  destruct (Hclaim LicenseScore.mp_queue LicenseScore.mp_put 7%nat (10 # 1) (12 # 1)
              (Some "MIT") 1%Z (LicenseScore.mkQueue true []))
    as (score & time_taken & q' & Hrun & _).
  - unfold Qle; simpl; lia.
  - vm_compute in Hrun. discriminate Hrun.
Qed.

(** C9 as stated fails: with [verbosity = 1] and a log sink whose second
    [put] raises, the exception is caught inside the [try] block and the
    score returned for ["apache-2.0"] is the fallback 0.5. *)
Lemma calculate_license_score_apache_any_sink_refuted :
  ~ (forall (Sink : Type) (put : log_entry -> Sink -> option exn * Sink)
            (pid : nat) (start_time end_time : Q) (verbosity : Z) (q : Sink),
       (start_time <= end_time)%Q ->
       exists time_taken q',
         LicenseScore.calculate_license_score put pid start_time end_time
           (Some "apache-2.0") verbosity q = (Ok (1.0%Q, time_taken), q') /\
         (0 <= time_taken)%Q).
Proof.
  intros Hclaim.
  destruct (Hclaim nat (LicenseScore.flaky_put 1) 7%nat (10 # 1) (12 # 1) 1%Z 0%nat)
    as (time_taken & q' & Hrun & _).
  - unfold Qle; simpl; lia.
  - vm_compute in Hrun. discriminate Hrun.
Qed.

Lemma calculate_license_score_result_witness :
  (10 # 1 <= 12 # 1)%Q /\
  exists score time_taken q',
    LicenseScore.calculate_license_score LicenseScore.queue_put 7 (10 # 1) (12 # 1)
      (Some "MIT") 2 [] = (Ok (score, time_taken), q') /\
    in_unit_interval score /\ (0 <= time_taken)%Q.
Proof.
  assert (Hclock : (10 # 1 <= 12 # 1)%Q) by (unfold Qle; simpl; lia).
  split; [exact Hclock|].
  apply (calculate_license_score_result LicenseScore.queue_put 7 (10 # 1) (12 # 1)
           (Some "MIT") 2 [] Hclock).
  right. intros entry q. reflexivity.
Defined.

Lemma calculate_license_score_apache_witness :
  logging_safe LicenseScore.queue_put 1 /\
  (10 # 1 <= 12 # 1)%Q /\
  exists q',
    LicenseScore.calculate_license_score LicenseScore.queue_put 7 (10 # 1) (12 # 1)
      (Some "apache-2.0") 1 [] = (Ok (1.0, (12 # 1) - (10 # 1)), q')%Q /\
    (0 <= (12 # 1) - (10 # 1))%Q.
Proof.
  assert (Hsafe : logging_safe LicenseScore.queue_put 1)
    by (right; intros entry q; reflexivity).
  assert (Hclock : (10 # 1 <= 12 # 1)%Q) by (unfold Qle; simpl; lia).
  split; [exact Hsafe|]. split; [exact Hclock|].
  apply (calculate_license_score_apache LicenseScore.queue_put 7 (10 # 1) (12 # 1)
           1 [] Hsafe Hclock).
Defined.

(** * Properties of the concurrent evaluator *)

Section ConcurrentEvaluator.

Import metric_caller.

Variable neutral : MetricResult.

Lemma completion_order_perm fuel : forall schedule pending,
  length pending <= fuel -> completion_order schedule pending fuel ≡ₚ pending.
Proof.
  induction fuel as [|fuel IH]; intros schedule pending Hlen.
  - destruct pending; [reflexivity | simpl in Hlen; lia].
  - destruct pending as [|x rest]; [reflexivity|].
    cbn [completion_order].
    set (i := hd 0 schedule `mod` length (x :: rest)).
    assert (Hi : i < length (x :: rest))
      by (apply Nat.mod_upper_bound; simpl; lia).
    destruct (lookup_lt_is_Some_2 _ _ Hi) as [name Hname].
    rewrite Hname.
    rewrite (delete_Permutation _ _ _ Hname) at 2.
    constructor. apply IH.
    rewrite length_delete by (eexists; exact Hname).
    simpl in Hlen |- *. lia.
Qed.

Lemma resolve_tasks_registered registry task_list :
  (forall name, name ∈ task_list -> is_Some (registry !! name)) ->
  resolve_tasks registry task_list = Ok (remove_dups task_list).
Proof.
  intros Hreg. unfold resolve_tasks.
  destruct (List.find _ _) as [unknown|] eqn:Hfind; [|reflexivity].
  apply find_some in Hfind as [Hin Hnone].
  apply bool_decide_eq_true in Hnone.
  apply list_elem_of_In, elem_of_remove_dups, Hreg in Hin.
  rewrite Hnone in Hin. destruct Hin as [? ?]. discriminate.
Qed.

Lemma collect_spec (entries : list (string * MetricResult)) :
  forall report : gmap string MetricResult,
    dom (foldl (fun report entry => <[entry.1 := entry.2]> report) report entries)
    = dom report ∪ list_to_set entries.*1.
Proof.
  induction entries as [|[name r] entries IH]; intros report; simpl.
  - rewrite (right_id_L ∅ (∪)). reflexivity.
  - rewrite IH, dom_insert_L. apply set_eq. intros x.
    rewrite !elem_of_union, elem_of_singleton. tauto.
Qed.

Lemma dom_collect (entries : list (string * MetricResult)) :
  dom (collect entries) = list_to_set entries.*1.
Proof.
  unfold collect. rewrite collect_spec, dom_empty_L, (left_id_L ∅ (∪)).
  reflexivity.
Qed.

(** C1: when every name of the task list is registered, [run_concurrently]
    returns a report whose key set is exactly the set of selected names,
    whatever the completion order and whichever metrics fail; the entries
    collected are one per selected name. *)
Theorem run_concurrently_keys schedule task_list input registry :
  (forall name, name ∈ task_list -> is_Some (registry !! name)) ->
  exists report total_latency entries,
    run_concurrently neutral schedule task_list input registry
      = Ok (report, total_latency) /\
    dom report = list_to_set task_list /\
    report = collect entries /\
    NoDup entries.*1 /\
    entries.*1 ≡ₚ remove_dups task_list /\
    (forall name, name ∈ task_list -> is_Some (report !! name)).
Proof.
  intros Hreg. unfold run_concurrently.
  rewrite (resolve_tasks_registered _ _ Hreg). simpl.
  set (selected := remove_dups task_list).
  set (completed := completion_order schedule selected (length selected)).
  set (entries := map (fun name => (name, evaluate neutral registry input name)) completed).
  assert (Hperm : completed ≡ₚ selected)
    by (apply completion_order_perm; reflexivity).
  assert (Hkeys : entries.*1 = completed).
  { unfold entries. clearbody completed. clear Hperm.
    induction completed as [|name l IH]; simpl; [reflexivity | f_equal; exact IH]. }
  assert (Hdom : dom (collect entries) = list_to_set task_list).
  { rewrite dom_collect, Hkeys. apply set_eq. intros name.
    rewrite !elem_of_list_to_set, Hperm. apply elem_of_remove_dups. }
  exists (collect entries), (slowest (map snd entries)), entries.
  split; [reflexivity|]. split; [exact Hdom|]. split; [reflexivity|].
  split; [rewrite Hkeys, Hperm; apply NoDup_remove_dups|].
  split; [rewrite Hkeys; exact Hperm|].
  intros name Hin. apply elem_of_dom. rewrite Hdom.
  apply elem_of_list_to_set. exact Hin.
Qed.

End ConcurrentEvaluator.

Lemma run_concurrently_keys_witness :
  (forall name, name ∈ ["license"; "size"; "license"] ->
                is_Some (demo_registry !! name)) /\
  exists report total_latency,
    metric_caller.run_concurrently (metric_caller.mkResult 0.0 0.0) [1; 0]
      ["license"; "size"; "license"] demo_input demo_registry
      = Ok (report, total_latency) /\
    dom report = list_to_set ["license"; "size"; "license"].
Proof.
  assert (Hreg : forall name, name ∈ ["license"; "size"; "license"] ->
                              is_Some (demo_registry !! name)).
  { intros name Hin. apply list_elem_of_In in Hin. simpl in Hin.
    destruct Hin as [<-|[<-|[<-|[]]]]; eexists; reflexivity. }
  split; [exact Hreg|].
  destruct (run_concurrently_keys (metric_caller.mkResult 0.0 0.0) [1; 0]
              ["license"; "size"; "license"] demo_input demo_registry Hreg)
    as (report & total_latency & entries & Hrun & Hdom & _).
  exists report, total_latency. split; [exact Hrun | exact Hdom].
Defined.

(** * Further properties of the URL classifier and the manifest parser *)

Section SegmentFacts.

Lemma split_no_sep sep s :
  Forall (fun x => count_char sep x = 0) (PyStr.split sep s).
Proof.
  induction s as [|a s IH]; simpl.
  - constructor; [reflexivity | constructor].
  - destruct (Ascii.eqb a sep) eqn:E.
    + constructor; [reflexivity | exact IH].
    + destruct (PyStr.split sep s) as [|x xs].
      * constructor; [simpl; rewrite E; reflexivity | constructor].
      * inversion IH as [|? ? Hx Hxs]; subst.
        constructor; [simpl; rewrite E; exact Hx | exact Hxs].
Qed.

Lemma split_nonempty sep s : PyStr.split sep s <> [].
Proof.
  intros Hnil. pose proof (split_length sep s) as Hlen.
  rewrite Hnil in Hlen. discriminate.
Qed.

Lemma lstrip_head p s c r : PyStr.lstrip_with p s = String c r -> p c = false.
Proof.
  induction s as [|a s IH]; simpl; [discriminate|].
  destruct (p a) eqn:Ha; [exact IH|]. intros [= <- _]. exact Ha.
Qed.

Lemma rstrip_head p c s d r :
  PyStr.rstrip_with p (String c s) = String d r -> d = c.
Proof.
  simpl. destruct (negb _ && p c); [discriminate|]. intros [= <- _]. reflexivity.
Qed.

Lemma strip_head p s c r : PyStr.strip_with p s = String c r -> p c = false.
Proof.
  unfold PyStr.strip_with.
  destruct (PyStr.lstrip_with p s) as [|c0 t] eqn:E; [discriminate|].
  intros Hr. apply rstrip_head in Hr as ->. exact (lstrip_head _ _ _ _ E).
Qed.

Lemma last_cons_nonempty (x : string) (l : list string) :
  l <> [] -> List.last (x :: l) "" = List.last l "".
Proof. destruct l; [congruence | reflexivity]. Qed.

Lemma split_cons sep c s :
  PyStr.split sep (String c s)
  = if Ascii.eqb c sep then EmptyString :: PyStr.split sep s
    else match PyStr.split sep s with
         | x :: xs => String c x :: xs
         | [] => [String c EmptyString]
         end.
Proof. reflexivity. Qed.

(** After [rstrip] of the separator, the last segment is not empty. *)
Lemma rstrip_last_segment p sep s :
  (forall c, Ascii.eqb c sep = true -> p c = true) ->
  PyStr.rstrip_with p s <> "" ->
  List.last (PyStr.split sep (PyStr.rstrip_with p s)) "" <> "".
Proof.
  intros Hsep. induction s as [|c s IH]; [simpl; congruence|].
  cbn [PyStr.rstrip_with].
  destruct (PyStr.rstrip_with p s) as [|d r] eqn:Er; cbn [PyStr.nonempty negb andb].
  - destruct (p c) eqn:Hc; [congruence|]. intros _.
    destruct (Ascii.eqb c sep) eqn:E; [rewrite (Hsep c E) in Hc; discriminate|].
    rewrite split_cons, E. simpl. discriminate.
  - intros _. specialize (IH ltac:(discriminate)).
    rewrite (split_cons sep c (String d r)).
    destruct (Ascii.eqb c sep) eqn:E.
    + rewrite last_cons_nonempty by apply split_nonempty. exact IH.
    + destruct (PyStr.split sep (String d r)) as [|x [|y xs]] eqn:Es.
      * exfalso. exact (split_nonempty _ _ Es).
      * simpl. discriminate.
      * exact IH.
Qed.

Lemma nth_no_sep sep (parts : list string) i :
  Forall (fun x => count_char sep x = 0) parts ->
  count_char sep (nth i parts "") = 0.
Proof.
  intros Hall. revert i.
  induction Hall as [|x l Hx _ IH]; intros [|i]; simpl; auto.
Qed.

Lemma last_no_sep sep (parts : list string) :
  Forall (fun x => count_char sep x = 0) parts ->
  count_char sep (List.last parts "") = 0.
Proof.
  induction 1 as [|x l Hx Hl IH]; [reflexivity|].
  destruct l; [exact Hx | exact IH].
Qed.

Lemma slash_strippable c : Ascii.eqb c "/" = true -> PyStr.mem c "/" = true.
Proof. simpl. intros ->. reflexivity. Qed.

Lemma path_parts_no_slash path :
  Forall (fun x => count_char "/" x = 0) (path_parts path).
Proof. apply split_no_sep. Qed.

(** With two or more segments the first one is not empty. *)
Lemma path_parts_head path :
  2 <= length (path_parts path) -> nth 0 (path_parts path) "" <> "".
Proof.
  unfold path_parts, PyStr.strip_chars.
  destruct (PyStr.strip_with _ path) as [|c r] eqn:Es; [simpl; lia|].
  intros _. apply strip_head in Es.
  assert (E : Ascii.eqb c "/" = false).
  { destruct (Ascii.eqb c "/") eqn:E; [|reflexivity].
    rewrite (slash_strippable c E) in Es. discriminate. }
  simpl. rewrite E. destruct (PyStr.split "/" r); simpl; discriminate.
Qed.

(** With two or more segments the last one is not empty. *)
Lemma path_parts_last path :
  2 <= length (path_parts path) -> List.last (path_parts path) "" <> "".
Proof.
  unfold path_parts, PyStr.strip_chars, PyStr.strip_with.
  intros Hlen. apply rstrip_last_segment; [exact slash_strippable|].
  intros Hnil. rewrite Hnil in Hlen. simpl in Hlen. lia.
Qed.

Lemma line_parts_no_comma line :
  Forall (fun x => count_char "," x = 0) (line_parts line).
Proof.
  unfold line_parts. apply Forall_app. split.
  - pose proof (split_no_sep "," line) as Hall.
    induction Hall as [|x l Hx _ IH]; simpl; constructor; [|exact IH].
    rewrite count_char_strip by reflexivity. exact Hx.
  - generalize (3 - length (map PyStr.strip (PyStr.split "," line))).
    intros n. induction n; simpl; constructor; [reflexivity | assumption].
Qed.

End SegmentFacts.

Section UrlClassifierMore.
Context `{UrlLib}.

Lemma huggingface_url_components url ns repo rev :
  parse_huggingface_url url = Ok (ns, repo, rev) ->
  ns <> "" /\ count_char "/" ns = 0 /\ count_char "/" repo = 0 /\
  count_char "/" rev = 0.
Proof.
  unfold parse_huggingface_url.
  destruct (urllib.urlparse url) as [parsed|e]; simpl; [|discriminate].
  pose proof (path_parts_no_slash (urllib.path parsed)) as Hall.
  pose proof (path_parts_head (urllib.path parsed)) as Hhead.
  destruct (Nat.ltb_spec (length (path_parts (urllib.path parsed))) 2) as [|Hge];
    [discriminate|].
  intros [= <- <- <-].
  split; [exact (Hhead Hge)|].
  split; [apply nth_no_sep, Hall|].
  split; [apply nth_no_sep, Hall|].
  destruct (_ && _); [apply nth_no_sep, Hall | reflexivity].
Qed.

Lemma dataset_url_identifier url id :
  parse_dataset_url url = Ok id ->
  exists parsed,
    urllib.urlparse url = Ok parsed /\
    ((PyStr.contains "huggingface.co" (urllib.netloc parsed) = true /\
      id = List.last (path_parts (urllib.path parsed)) "" /\
      id <> "" /\ count_char "/" id = 0) \/
     (PyStr.contains "huggingface.co" (urllib.netloc parsed) = false /\
      PyStr.contains "github.com" (urllib.netloc parsed) = true /\
      id = url)).
Proof.
  unfold parse_dataset_url.
  destruct (urllib.urlparse url) as [parsed|e]; simpl; [|discriminate].
  intros Hret. exists parsed. split; [reflexivity|].
  destruct (PyStr.contains "huggingface.co" _).
  - left. split; [reflexivity|].
    destruct (Nat.ltb_spec (length (path_parts (urllib.path parsed))) 2) as [|Hge];
      [discriminate|].
    simpl in Hret. destruct (negb _); [discriminate|].
    injection Hret as <-.
    split; [reflexivity|].
    split; [exact (path_parts_last _ Hge)|].
    apply last_no_sep, path_parts_no_slash.
  - right. split; [reflexivity|].
    destruct (PyStr.contains "github.com" _); [|discriminate].
    injection Hret as <-. split; reflexivity.
Qed.

(** X1: in every triple that [parse_huggingface_url] returns the namespace
    is not empty, and neither the namespace nor the repository nor the
    revision contains a slash. *)
Theorem parse_huggingface_url_components url ns repo rev :
  parse_huggingface_url url = Ok (ns, repo, rev) ->
  ns <> "" /\ count_char "/" ns = 0 /\ count_char "/" repo = 0 /\
  count_char "/" rev = 0.
Proof.
  unfold parse_huggingface_url.
  destruct (urllib.urlparse url) as [parsed|e]; simpl; [|discriminate].
  pose proof (path_parts_no_slash (urllib.path parsed)) as Hall.
  pose proof (path_parts_head (urllib.path parsed)) as Hhead.
  destruct (Nat.ltb_spec (length (path_parts (urllib.path parsed))) 2) as [|Hge];
    [discriminate|].
  intros [= <- <- <-].
  split; [exact (Hhead Hge)|].
  split; [apply nth_no_sep, Hall|].
  split; [apply nth_no_sep, Hall|].
  destruct (_ && _); [apply nth_no_sep, Hall | reflexivity].
Qed.

(** X2: an identifier returned by [parse_dataset_url] is either the last
    path segment of a ["huggingface.co"] link, which is not empty and has
    no slash, or the whole link of a ["github.com"] link. *)
Theorem parse_dataset_url_identifier url id :
  parse_dataset_url url = Ok id ->
  exists parsed,
    urllib.urlparse url = Ok parsed /\
    ((PyStr.contains "huggingface.co" (urllib.netloc parsed) = true /\
      id = List.last (path_parts (urllib.path parsed)) "" /\
      id <> "" /\ count_char "/" id = 0) \/
     (PyStr.contains "huggingface.co" (urllib.netloc parsed) = false /\
      PyStr.contains "github.com" (urllib.netloc parsed) = true /\
      id = url)).
Proof.
  unfold parse_dataset_url.
  destruct (urllib.urlparse url) as [parsed|e]; simpl; [|discriminate].
  intros Hret. exists parsed. split; [reflexivity|].
  destruct (PyStr.contains "huggingface.co" _).
  - left. split; [reflexivity|].
    destruct (Nat.ltb_spec (length (path_parts (urllib.path parsed))) 2) as [|Hge];
      [discriminate|].
    simpl in Hret. destruct (negb _); [discriminate|].
    injection Hret as <-.
    split; [reflexivity|].
    split; [exact (path_parts_last _ Hge)|].
    apply last_no_sep, path_parts_no_slash.
  - right. split; [reflexivity|].
    destruct (PyStr.contains "github.com" _); [|discriminate].
    injection Hret as <-. split; reflexivity.
Qed.

End UrlClassifierMore.

Lemma parse_huggingface_url_components_witness :
  @parse_huggingface_url lenient_urllib "https://huggingface.co/g/m/tree/v1/x"
    = Ok ("g", "m", "v1") /\
  "g" <> "" /\ count_char "/" "g" = 0 /\ count_char "/" "m" = 0 /\
  count_char "/" "v1" = 0.
Proof.
  split; [reflexivity|].
  apply (@parse_huggingface_url_components lenient_urllib
           "https://huggingface.co/g/m/tree/v1/x" "g" "m" "v1").
  reflexivity.
Defined.

Lemma parse_dataset_url_identifier_witness :
  @parse_dataset_url lenient_urllib "https://huggingface.co/datasets/glue/"
    = Ok "glue" /\
  exists parsed,
    @urllib.urlparse lenient_urllib "https://huggingface.co/datasets/glue/"
      = Ok parsed /\
    ((PyStr.contains "huggingface.co" (urllib.netloc parsed) = true /\
      "glue" = List.last (path_parts (urllib.path parsed)) "" /\
      "glue" <> "" /\ count_char "/" "glue" = 0) \/
     (PyStr.contains "huggingface.co" (urllib.netloc parsed) = false /\
      PyStr.contains "github.com" (urllib.netloc parsed) = true /\
      "glue" = "https://huggingface.co/datasets/glue/")).
Proof.
  split; [reflexivity|].
  apply (@parse_dataset_url_identifier lenient_urllib
           "https://huggingface.co/datasets/glue/" "glue").
  reflexivity.
Defined.

Section ManifestParserMore.
Context `{UrlLib}.

Lemma process_line_Some_nonblank line g :
  process_line line = Ok (Some g) -> nonblank line = true.
Proof.
  destruct (nonblank line) eqn:Hb; [reflexivity|].
  rewrite (process_line_blank line Hb). discriminate.
Qed.

Lemma process_line_None_blank line :
  process_line line = Ok None -> nonblank line = false.
Proof.
  unfold nonblank, process_line.
  destruct (PyStr.nonempty (PyStr.strip line)); [|reflexivity]. simpl.
  destruct (unpack3 _) as [[[c d] m]|e]; simpl; [|discriminate].
  destruct (if PyStr.nonempty m then _ else _) as [?|?]; simpl; [|discriminate].
  destruct (if PyStr.nonempty d then _ else _) as [?|?]; simpl; [|discriminate].
  destruct (if PyStr.nonempty m then _ else _) as [?|?]; simpl; discriminate.
Qed.

(** A non-blank line that is processed has exactly three padded fields. *)
Lemma process_line_three_fields line :
  nonblank line = true -> returns (process_line line) ->
  exists c d m, line_parts (PyStr.strip line) = [c; d; m].
Proof.
  intros Hb [r Hr].
  pose proof (line_parts_length (PyStr.strip line)) as Hlen.
  destruct (line_parts (PyStr.strip line)) as [|c [|d [|m [|x rest]]]] eqn:Hparts;
    simpl in Hlen; try lia.
  - exists c, d, m. reflexivity.
  - destruct (process_line_too_many line Hb) as [e He].
    + rewrite Hparts. simpl. lia.
    + congruence.
Qed.

Lemma process_line_returns_well_formed line :
  returns (process_line line) -> well_formed_line line.
Proof.
  intros Hret. destruct (nonblank line) eqn:Hb.
  - destruct (process_line_three_fields line Hb Hret) as (c & d & m & Hparts).
    destruct Hret as [r Hr].
    rewrite (process_line_fields line c d m Hb Hparts) in Hr.
    rewrite line_parts_fields in Hparts.
    assert (Hlen : length (line_fields line) <= 3).
    { apply (f_equal length) in Hparts. rewrite length_app in Hparts.
      simpl in Hparts. lia. }
    split; [exact Hlen|]. split.
    + intros m' Hm' Hne.
      assert (m' = m) as ->.
      { apply (lookup_app_l_Some _ (repeat "" (3 - length (line_fields line))))
          in Hm'.
        rewrite Hparts in Hm'. simpl in Hm'. congruence. }
      apply nonempty_true in Hne. rewrite Hne in Hr.
      destruct (parse_huggingface_url m) as [t|e]; [eexists; reflexivity|].
      discriminate.
    + intros d' Hd' Hne.
      assert (d' = d) as ->.
      { apply (lookup_app_l_Some _ (repeat "" (3 - length (line_fields line))))
          in Hd'.
        rewrite Hparts in Hd'. simpl in Hd'. congruence. }
      apply nonempty_true in Hne. rewrite Hne in Hr.
      destruct (if PyStr.nonempty m then _ else _) as [?|?]; simpl in Hr;
        [|discriminate].
      destruct (parse_dataset_url d) as [t|e]; [eexists; reflexivity|].
      discriminate.
  - unfold nonblank in Hb. apply nonempty_false in Hb.
    unfold well_formed_line, line_fields. rewrite Hb. simpl.
    split; [lia|]. split; intros x Hx; discriminate.
Qed.

(** What a completed loop has done. *)
Lemma for_lines_inv lines : forall acc groups,
  for_lines lines acc = Ok groups ->
  exists new,
    groups = (acc ++ new)%list /\
    Forall2 (fun line g => process_line line = Ok (Some g))
            (List.filter nonblank lines) new /\
    Forall (fun line => returns (process_line line)) lines.
Proof.
  induction lines as [|line rest IH]; intros acc groups; simpl.
  - intros [= <-]. exists []. rewrite app_nil_r.
    split; [reflexivity|]. split; constructor.
  - destruct (process_line line) as [[g|]|e] eqn:Hline; simpl; [| |discriminate].
    + intros Hrun. apply IH in Hrun as (new & -> & Hrel & Hall).
      rewrite (process_line_Some_nonblank line g Hline).
      exists (g :: new). rewrite <- app_assoc.
      split; [reflexivity|].
      split; [constructor; assumption|].
      constructor; [eexists; exact Hline | exact Hall].
    + intros Hrun. apply IH in Hrun as (new & -> & Hrel & Hall).
      rewrite (process_line_None_blank line Hline).
      exists new. split; [reflexivity|]. split; [exact Hrel|].
      constructor; [eexists; exact Hline | exact Hall].
Qed.

(** X3: the parse returns exactly when the file exists, is ASCII and all
    its lines are well formed; what it returns then has one group per
    non-blank line. *)
Theorem parse_project_file_returns_iff fs filepath :
  (returns (parse_project_file fs filepath) <->
   exists bytes,
     fs filepath = Some bytes /\ decode_ascii bytes = Ok bytes /\
     Forall well_formed_line (file_lines bytes)) /\
  (forall groups,
     parse_project_file fs filepath = Ok groups ->
     exists bytes,
       fs filepath = Some bytes /\
       length groups = length (List.filter nonblank (file_lines bytes))).
Proof.
  unfold parse_project_file. split; [split|].
  - intros [groups Hrun].
    destruct (fs filepath) as [bytes|]; [|discriminate].
    destruct (decode_ascii bytes) as [text|e] eqn:Hdec; [|discriminate].
    pose proof (decode_ascii_inv _ _ Hdec) as ->. simpl in Hrun.
    apply for_lines_inv in Hrun as (new & _ & _ & Hall).
    exists bytes. split; [reflexivity|]. split; [exact Hdec|].
    eapply Forall_impl; [exact Hall|].
    intros line Hline. apply process_line_returns_well_formed, Hline.
  - intros (bytes & -> & -> & Hall). simpl.
    destruct (for_lines_well_formed (file_lines bytes) [] Hall) as [groups [Hrun _]].
    exists groups. exact Hrun.
  - intros groups Hrun.
    destruct (fs filepath) as [bytes|]; [|discriminate].
    destruct (decode_ascii bytes) as [text|e] eqn:Hdec; [|discriminate].
    pose proof (decode_ascii_inv _ _ Hdec) as ->. simpl in Hrun.
    apply for_lines_inv in Hrun as (new & -> & Hrel & _).
    exists bytes. split; [reflexivity|].
    simpl. symmetry. apply (Forall2_length _ _ _ Hrel).
Qed.

Lemma for_lines_first_error pre line post acc e :
  Forall (fun l => returns (process_line l)) pre ->
  process_line line = Raise e ->
  for_lines (pre ++ line :: post) acc = Raise e.
Proof.
  intros Hpre Hline. revert acc.
  induction Hpre as [|l pre [r Hr] _ IH]; intros acc; simpl.
  - rewrite Hline. reflexivity.
  - rewrite Hr. simpl. destruct r; apply IH.
Qed.

(** X4: in a file that decodes as ASCII, the exception of the parse is the
    exception of the first line that cannot be processed, whatever the lines
    after it are. *)
Theorem parse_project_file_first_error fs filepath bytes pre line post e :
  fs filepath = Some bytes ->
  decode_ascii bytes = Ok bytes ->
  file_lines bytes = (pre ++ line :: post)%list ->
  Forall well_formed_line pre ->
  process_line line = Raise e ->
  parse_project_file fs filepath = Raise e.
Proof.
  intros Hfs Hdec Hlines Hpre Hline.
  unfold parse_project_file. rewrite Hfs, Hdec. simpl. rewrite Hlines.
  apply for_lines_first_error; [|exact Hline].
  eapply Forall_impl; [exact Hpre|].
  intros l Hl. destruct (nonblank l) eqn:Hb.
  - destruct (process_line_well_formed l Hl Hb) as [g [Hg _]].
    eexists; exact Hg.
  - rewrite (process_line_blank l Hb). eexists; reflexivity.
Qed.

Lemma process_line_strip a b :
  PyStr.strip a = PyStr.strip b -> process_line a = process_line b.
Proof. unfold process_line. intros ->. reflexivity. Qed.

Lemma for_lines_filter lines : forall acc,
  for_lines lines acc = for_lines (List.filter nonblank lines) acc.
Proof.
  induction lines as [|line rest IH]; intros acc; simpl; [reflexivity|].
  destruct (nonblank line) eqn:Hb; simpl.
  - destruct (process_line line) as [[g|]|e]; simpl; auto.
  - rewrite (process_line_blank line Hb). simpl. apply IH.
Qed.

Lemma for_lines_stripped xs : forall ys acc,
  map PyStr.strip xs = map PyStr.strip ys ->
  for_lines xs acc = for_lines ys acc.
Proof.
  induction xs as [|x xs IH]; intros [|y ys] acc; simpl; try discriminate.
  - reflexivity.
  - intros [= Hxy Hrest]. rewrite (process_line_strip x y Hxy).
    destruct (process_line y) as [[g|]|e]; simpl; auto.
Qed.

(** X5: the result of the parse depends only on the non-blank lines with
    their surrounding white space removed: blank lines, indentation and the
    kind of line ends make no difference. *)
Theorem parse_project_file_significant_lines fs1 fs2 path1 path2 bytes1 bytes2 :
  fs1 path1 = Some bytes1 -> fs2 path2 = Some bytes2 ->
  decode_ascii bytes1 = Ok bytes1 -> decode_ascii bytes2 = Ok bytes2 ->
  significant_lines bytes1 = significant_lines bytes2 ->
  parse_project_file fs1 path1 = parse_project_file fs2 path2.
Proof.
  intros Hfs1 Hfs2 Hdec1 Hdec2 Hsig.
  unfold parse_project_file. rewrite Hfs1, Hfs2, Hdec1, Hdec2. simpl.
  rewrite (for_lines_filter (file_lines bytes1)).
  rewrite (for_lines_filter (file_lines bytes2)).
  apply for_lines_stripped. exact Hsig.
Qed.

End ManifestParserMore.

Lemma parse_project_file_first_error_witness :
  @parse_project_file lenient_urllib
    (single_file "urls.txt" manifest_bad_link) "urls.txt"
  = Raise (ValueError "Invalid Hugging Face URL: https://host/onlyonesegment").
Proof.
  apply (@parse_project_file_first_error lenient_urllib
           (single_file "urls.txt" manifest_bad_link) "urls.txt" manifest_bad_link
           [",,https://huggingface.co/openai-community/gpt2" ++ nl]
           (",,https://host/onlyonesegment" ++ nl) []).
  - reflexivity.
  - reflexivity.
  - vm_compute. reflexivity.
  - constructor; [well_formed_by_evaluation | constructor].
  - reflexivity.
Defined.

Lemma parse_project_file_significant_lines_witness :
  significant_lines manifest_crlf = significant_lines manifest_ok /\
  @parse_project_file lenient_urllib (single_file "a.txt" manifest_crlf) "a.txt"
  = @parse_project_file lenient_urllib (single_file "b.txt" manifest_ok) "b.txt".
Proof.
  assert (Hsig : significant_lines manifest_crlf = significant_lines manifest_ok)
    by (vm_compute; reflexivity).
  split; [exact Hsig|].
  apply (@parse_project_file_significant_lines lenient_urllib
           (single_file "a.txt" manifest_crlf) (single_file "b.txt" manifest_ok)
           "a.txt" "b.txt" manifest_crlf manifest_ok).
  - reflexivity.
  - reflexivity.
  - vm_compute. reflexivity.
  - vm_compute. reflexivity.
  - exact Hsig.
Defined.

Section ManifestStructure.
Context `{UrlLib}.

Lemma process_line_group_invariant line g :
  process_line line = Ok (Some g) -> group_invariant g.
Proof.
  intros Hg.
  pose proof (process_line_Some_nonblank line g Hg) as Hb.
  destruct (process_line_three_fields line Hb) as (c & d & m & Hparts);
    [eexists; exact Hg|].
  pose proof (line_parts_no_comma (PyStr.strip line)) as Hcomma.
  rewrite Hparts in Hcomma.
  inversion Hcomma as [|? ? Hc Hcomma1]; subst.
  inversion Hcomma1 as [|? ? Hd Hcomma2]; subst.
  inversion Hcomma2 as [|? ? Hm _]; subst.
  rewrite (process_line_fields line c d m Hb Hparts) in Hg.
  assert (Hmodel : forall x,
            (if PyStr.nonempty m
             then let* '(ns, rp, rev) := parse_huggingface_url m in
                  Ok (Some (Model.mk m ns rp rev))
             else Ok None) = Ok (Some x) ->
            Model.link x <> "" /\ Model.namespace x <> "" /\
            count_char "," (Model.link x) = 0 /\
            count_char "/" (Model.namespace x) = 0 /\
            count_char "/" (Model.repo x) = 0 /\
            count_char "/" (Model.rev x) = 0).
  { intros x. destruct (PyStr.nonempty m) eqn:Em; [|discriminate].
    destruct (parse_huggingface_url m) as [[[ns rp] rev]|e] eqn:Hurl;
      simpl; [|discriminate].
    intros [= <-]. simpl.
    destruct (huggingface_url_components m ns rp rev Hurl) as (Hns & H1 & H2 & H3).
    apply nonempty_true in Em. repeat split; assumption. }
  assert (Hdataset : forall x,
            (if PyStr.nonempty d
             then let* data_repo := parse_dataset_url d in
                  Ok (Some (Dataset.mk d "" data_repo ""))
             else Ok None) = Ok (Some x) ->
            Dataset.link x <> "" /\ Dataset.repo x <> "" /\
            Dataset.namespace x = "" /\ Dataset.rev x = "" /\
            count_char "," (Dataset.link x) = 0).
  { intros x. destruct (PyStr.nonempty d) eqn:Ed; [|discriminate].
    destruct (parse_dataset_url d) as [id|e] eqn:Hds; simpl; [|discriminate].
    intros [= <-]. simpl. apply nonempty_true in Ed.
    destruct (dataset_url_identifier d id Hds)
      as (parsed & _ & [(_ & _ & Hid & _) | (_ & _ & ->)]);
      repeat split; assumption. }
  destruct (if PyStr.nonempty m then parse_huggingface_url m else _) as [?|?];
    simpl in Hg; [|discriminate].
  destruct (if PyStr.nonempty d then _ else _) as [ds|?] eqn:Eds;
    simpl in Hg; [|discriminate].
  destruct (if PyStr.nonempty m then _ else _) as [md|?] eqn:Emd;
    simpl in Hg; [|discriminate].
  injection Hg as <-. unfold group_invariant. simpl.
  split; [|split].
  - intros x. destruct (PyStr.nonempty c) eqn:Ec; [|discriminate].
    intros [= <-]. simpl. apply nonempty_true in Ec.
    repeat split; assumption.
  - intros x ->. apply Hdataset. reflexivity.
  - intros x ->. apply Hmodel. reflexivity.
Qed.

(** X6: every group that the parse returns has non-empty links without
    commas; its model has a non-empty namespace, and namespace, repository
    and revision without slashes; its dataset has a non-empty identifier and
    empty namespace and revision; its code has an empty namespace. *)
Theorem parse_project_file_group_invariant fs filepath groups :
  parse_project_file fs filepath = Ok groups ->
  Forall group_invariant groups.
Proof.
  unfold parse_project_file.
  destruct (fs filepath) as [bytes|]; [|discriminate].
  destruct (decode_ascii bytes) as [text|e]; [|discriminate]. simpl.
  intros Hrun. apply for_lines_inv in Hrun as (new & -> & Hrel & _).
  simpl. clear -Hrel.
  induction Hrel as [|line g lines new Hg _ IH]; constructor; [|exact IH].
  exact (process_line_group_invariant line g Hg).
Qed.

Lemma for_lines_app xs : forall ys acc,
  for_lines (xs ++ ys) acc
  = let* groups := for_lines xs acc in for_lines ys groups.
Proof.
  induction xs as [|x xs IH]; intros ys acc; simpl; [reflexivity|].
  destruct (process_line x) as [[g|]|e]; simpl; auto.
Qed.

Lemma for_lines_acc lines : forall acc,
  for_lines lines acc
  = let* groups := for_lines lines [] in Ok (acc ++ groups)%list.
Proof.
  induction lines as [|line rest IH]; intros acc; simpl.
  - rewrite app_nil_r. reflexivity.
  - destruct (process_line line) as [[g|]|e]; simpl; auto.
    rewrite (IH (acc ++ [g])%list), (IH [g]).
    destruct (for_lines rest []) as [groups|e]; simpl; [|reflexivity].
    rewrite <- app_assoc. reflexivity.
Qed.

End ManifestStructure.

Section LineFacts.

Lemma append_String c s t : String c s ++ t = String c (s ++ t).
Proof. reflexivity. Qed.

Lemma append_Empty t : EmptyString ++ t = t.
Proof. reflexivity. Qed.

Lemma all_app p a b :
  PyStr.all p (a ++ b) = PyStr.all p a && PyStr.all p b.
Proof.
  induction a as [|c a IH]; [reflexivity|].
  rewrite append_String. cbn [PyStr.all]. rewrite IH.
  destruct (p c); reflexivity.
Qed.

Lemma universal_newlines_cons c s :
  universal_newlines (String c s)
  = if Ascii.eqb c CR then
      match s with
      | String d s'' =>
          if Ascii.eqb d LF then String LF (universal_newlines s'')
          else String LF (universal_newlines s)
      | EmptyString => String LF EmptyString
      end
    else String c (universal_newlines s).
Proof. reflexivity. Qed.

Lemma cut_lines_cons c s :
  cut_lines (String c s)
  = if Ascii.eqb c LF then String c EmptyString :: cut_lines s
    else match cut_lines s with
         | x :: xs => String c x :: xs
         | [] => [String c EmptyString]
         end.
Proof. reflexivity. Qed.

(** Line-end translation of a text that ends with a line feed, followed by
    more text. *)
Lemma universal_newlines_app b n : forall a,
  String.length a <= n ->
  universal_newlines ((a ++ nl) ++ b)
  = universal_newlines (a ++ nl) ++ universal_newlines b /\
  exists x, universal_newlines (a ++ nl) = x ++ nl.
Proof.
  induction n as [|n IH]; intros [|c s] Hlen; simpl in Hlen; try lia.
  - split; [reflexivity | exists ""; reflexivity].
  - split; [reflexivity | exists ""; reflexivity].
  - destruct s as [|d s'].
    + unfold nl. repeat rewrite append_String. repeat rewrite append_Empty.
      rewrite !universal_newlines_cons.
      destruct (Ascii.eqb c CR); simpl.
      * split; [reflexivity | exists ""; reflexivity].
      * split; [reflexivity | exists (String c ""); reflexivity].
    + destruct (IH s' ltac:(simpl in Hlen; lia)) as [IH1 [x1 Hx1]].
      destruct (IH (String d s') ltac:(simpl in Hlen |- *; lia)) as [IH2 [x2 Hx2]].
      repeat rewrite append_String in IH2.
      repeat rewrite append_String in Hx2.
      repeat rewrite append_String.
      rewrite (universal_newlines_cons c (String d ((s' ++ nl) ++ b))).
      rewrite (universal_newlines_cons c (String d (s' ++ nl))).
      destruct (Ascii.eqb c CR); [destruct (Ascii.eqb d LF)|].
      * rewrite IH1, Hx1. split; [reflexivity | exists (String LF x1); reflexivity].
      * rewrite IH2, Hx2. split; [reflexivity | exists (String LF x2); reflexivity].
      * rewrite IH2, Hx2. split; [reflexivity | exists (String c x2); reflexivity].
Qed.

Lemma cut_lines_nonempty c s : cut_lines (String c s) <> [].
Proof.
  rewrite cut_lines_cons.
  destruct (Ascii.eqb c LF); [discriminate|].
  destruct (cut_lines s); discriminate.
Qed.

Lemma cut_lines_app x y :
  cut_lines ((x ++ nl) ++ y) = (cut_lines (x ++ nl) ++ cut_lines y)%list.
Proof.
  induction x as [|c x IH].
  - reflexivity.
  - repeat rewrite append_String. rewrite !cut_lines_cons, IH.
    destruct (Ascii.eqb c LF); [reflexivity|].
    destruct (cut_lines (x ++ nl)) as [|l ls] eqn:E; [|reflexivity].
    exfalso. destruct x; [exact (cut_lines_nonempty _ _ E)|].
    rewrite append_String in E. exact (cut_lines_nonempty _ _ E).
Qed.

Lemma file_lines_app a b :
  file_lines ((a ++ nl) ++ b) = (file_lines (a ++ nl) ++ file_lines b)%list.
Proof.
  unfold file_lines.
  destruct (universal_newlines_app b (String.length a) a (le_n _)) as [-> [x ->]].
  apply cut_lines_app.
Qed.

End LineFacts.

Section ManifestAppend.
Context `{UrlLib}.

(** X7: a manifest made of a first part that ends with a line feed and a
    second part is parsed as the two parts one after the other: the groups
    of the first part followed by the groups of the second, or the first
    exception met. *)
Theorem parse_project_file_append fs path1 path2 path12 a b :
  fs path1 = Some (a ++ nl) ->
  fs path2 = Some b ->
  fs path12 = Some ((a ++ nl) ++ b) ->
  decode_ascii (a ++ nl) = Ok (a ++ nl) ->
  decode_ascii b = Ok b ->
  parse_project_file fs path12
  = let* first := parse_project_file fs path1 in
    let* second := parse_project_file fs path2 in
    Ok (first ++ second)%list.
Proof.
  intros H1 H2 H12 Hdec1 Hdec2.
  assert (Hdec12 : decode_ascii ((a ++ nl) ++ b) = Ok ((a ++ nl) ++ b)).
  { unfold decode_ascii in *. rewrite all_app.
    destruct (PyStr.all _ (a ++ nl)); [|discriminate].
    destruct (PyStr.all _ b); [reflexivity | discriminate]. }
  unfold parse_project_file. rewrite H1, H2, H12, Hdec1, Hdec2, Hdec12. simpl.
  rewrite file_lines_app, for_lines_app.
  destruct (for_lines (file_lines (a ++ nl)) []) as [first|e]; simpl;
    [|reflexivity].
  apply for_lines_acc.
Qed.

End ManifestAppend.

Lemma parse_project_file_group_invariant_witness :
  exists groups,
    @parse_project_file lenient_urllib (single_file "urls.txt" manifest_ok) "urls.txt"
      = Ok groups /\
    length groups = 2 /\ Forall group_invariant groups.
Proof.
  eexists. split; [vm_compute; reflexivity|]. split; [reflexivity|].
  apply (@parse_project_file_group_invariant lenient_urllib
           (single_file "urls.txt" manifest_ok) "urls.txt").
  vm_compute. reflexivity.
Defined.

Lemma parse_project_file_append_witness :
  @parse_project_file lenient_urllib
    (files [("a.txt", manifest_first); ("b.txt", manifest_second);
            ("ab.txt", manifest_first ++ manifest_second)]) "ab.txt"
  = Ok [ mkProjectGroup None None
           (Some (Model.mk "https://huggingface.co/openai-community/gpt2"
                    "openai-community" "gpt2" "main"));
         mkProjectGroup (Some (Code.mk "https://github.com/a/b" "")) None
           (Some (Model.mk "https://huggingface.co/g/m/tree/v1" "g" "m" "v1")) ].
Proof.
  rewrite (@parse_project_file_append lenient_urllib
             (files [("a.txt", manifest_first); ("b.txt", manifest_second);
                     ("ab.txt", manifest_first ++ manifest_second)])
             "a.txt" "b.txt" "ab.txt"
             (",,https://huggingface.co/openai-community/gpt2" ++ String CR "")
             manifest_second).
  - vm_compute. reflexivity.
  - vm_compute. reflexivity.
  - vm_compute. reflexivity.
  - vm_compute. reflexivity.
  - vm_compute. reflexivity.
  - vm_compute. reflexivity.
Defined.

(** * Further properties of the license metric *)

Section LicenseScoreFacts.

Import LicenseScore.

Lemma prefix_trans p : forall q s,
  String.prefix p q = true -> String.prefix q s = true -> String.prefix p s = true.
Proof.
  induction p as [|a p IH]; intros q s Hpq Hqs; [destruct s; reflexivity|].
  destruct q as [|b q]; [discriminate|].
  destruct s as [|c s]; [discriminate|].
  simpl in *.
  destruct (ascii_dec a b) as [->|]; [|discriminate].
  destruct (ascii_dec b c) as [->|]; [|discriminate].
  eapply IH; eassumption.
Qed.

Lemma contains_String n c s :
  PyStr.contains n (String c s)
  = String.prefix n (String c s) || PyStr.contains n s.
Proof. reflexivity. Qed.

Lemma contains_Empty n :
  PyStr.contains n EmptyString = String.prefix n EmptyString || false.
Proof. reflexivity. Qed.

(** A text that contains [q] contains every prefix of [q]. *)
Lemma contains_prefix p q s :
  String.prefix p q = true -> PyStr.contains q s = true ->
  PyStr.contains p s = true.
Proof.
  intros Hpq. induction s as [|c s IH].
  - rewrite !contains_Empty, !orb_false_r. apply prefix_trans, Hpq.
  - rewrite !contains_String. intros Hq.
    apply orb_true_iff in Hq as [Hq|Hq].
    + rewrite (prefix_trans p q _ Hpq Hq). reflexivity.
    + rewrite (IH Hq). apply orb_true_r.
Qed.

Lemma lower_char_idempotent c :
  PyStr.lower_char (PyStr.lower_char c) = PyStr.lower_char c.
Proof. destruct c as [[] [] [] [] [] [] [] []]; reflexivity. Qed.

Lemma lower_idempotent s : PyStr.lower (PyStr.lower s) = PyStr.lower s.
Proof.
  induction s as [|c s IH]; simpl; [reflexivity|].
  rewrite lower_char_idempotent, IH. reflexivity.
Qed.

Lemma nonempty_lower s : PyStr.nonempty (PyStr.lower s) = PyStr.nonempty s.
Proof. destruct s; reflexivity. Qed.

Lemma license_text_lower s :
  license_text (Some (PyStr.lower s)) = license_text (Some s).
Proof.
  unfold license_text. simpl. rewrite nonempty_lower, lower_idempotent.
  reflexivity.
Qed.

Section Sink.

Context {Sink : Type}.
Variable put : log_entry -> Sink -> option exn * Sink.
Variable pid : nat.
Variable license_info : option string.
Variable verbosity : Z.

(** The arm that the [try] block runs has the score [license_score]. *)
Lemma try_body_score :
  exists message,
    try_body put pid license_info verbosity
    = pbind (when (informational verbosity)
                  (log_queue_put put (found_entry pid license_info)))
            (fun _ => tier put pid verbosity (license_score license_info) message) /\
    In (license_score license_info) score_values /\
    (any_in ["lgpl"; "lgpl-"; "lesser general public license"]
       (license_text license_info) = true ->
     In (license_score license_info) [1.0; 0.9; 0.8; 0.7]%Q).
Proof.
  unfold license_score, calculate_license_score, try_except, try_body, found_entry.
  cbv zeta. fold (license_text license_info).
  replace (if truthy license_info
           then log_queue_put put (LogLicenseFound pid license_info)
           else log_queue_put put (LogNoLicense pid))
    with (log_queue_put put
            (if truthy license_info then LogLicenseFound pid license_info
             else LogNoLicense pid))
    by (destruct (truthy license_info); reflexivity).
  repeat match goal with
         | |- context [if ?b then tier _ _ _ _ _ else _] => destruct b
         end;
    eexists; (split; [reflexivity|]);
    (split; [vm_compute; auto 12|]);
    intros Hx; try discriminate Hx; vm_compute; auto 12.
Qed.

(** When no [put] can raise, the call returns [license_score]. *)
Lemma license_score_returned start_time end_time q :
  logging_safe put verbosity ->
  exists q',
    calculate_license_score put pid start_time end_time license_info verbosity q
    = (Ok (license_score license_info, end_time - start_time), q')%Q.
Proof.
  intros Hsafe. unfold calculate_license_score.
  destruct try_body_score as (message & Hbody & _).
  destruct (when_informational_returns put verbosity
              (LogStarting pid license_info) q Hsafe) as [q1 Hq1].
  destruct (when_informational_returns put verbosity
              (found_entry pid license_info) q1 Hsafe) as [q2 Hq2].
  destruct (tier_returns put pid verbosity (license_score license_info)
              message q2 Hsafe) as [q3 Hq3].
  destruct (when_informational_returns put verbosity
              (LogFinished pid (license_score license_info)
                 (end_time - start_time)%Q) q3 Hsafe) as [q4 Hq4].
  exists q4.
  rewrite (pbind_step _ _ _ _ _ Hq1).
  assert (Htry : try_except (try_body put pid license_info verbosity)
                   (handler put pid license_info verbosity) q1
                 = (Ok (license_score license_info), q3)).
  { unfold try_except. rewrite Hbody, (pbind_step _ _ _ _ _ Hq2), Hq3.
    reflexivity. }
  rewrite (pbind_step _ _ _ _ _ Htry), (pbind_step _ _ _ _ _ Hq4).
  reflexivity.
Qed.

(** A returned score is the score of the license or the fallback. *)
Lemma license_score_or_fallback start_time end_time q score time_taken q' :
  calculate_license_score put pid start_time end_time license_info verbosity q
    = (Ok (score, time_taken), q') ->
  score = license_score license_info \/ score = 0.5%Q.
Proof.
  unfold calculate_license_score. intros Hrun.
  apply pbind_returns_inv in Hrun as (_ & q1 & _ & Hrun).
  apply pbind_returns_inv in Hrun as (s & q2 & Htry & Hrun).
  apply pbind_returns_inv in Hrun as (_ & q3 & _ & Hpure).
  unfold pure in Hpure. injection Hpure as <- _ _.
  unfold try_except in Htry.
  destruct (try_body put pid license_info verbosity q1) as [[s0|e] q1'] eqn:Hbody.
  - injection Htry as <- _. left.
    destruct try_body_score as (message & Heq & _). rewrite Heq in Hbody.
    apply pbind_returns_inv in Hbody as (_ & q5 & _ & Htier).
    exact (tier_returns_inv put pid verbosity _ _ _ _ _ Htier).
  - destruct (is_Exception e); [|discriminate]. right.
    exact (handler_returns_inv put pid license_info verbosity _ _ _ _ Htry).
Qed.

End Sink.

Lemma license_score_values license_info : In (license_score license_info) score_values.
Proof.
  destruct (try_body_score silent_put 0 license_info 0) as (_ & _ & Hin & _).
  exact Hin.
Qed.

(** The score depends on the license only through [license_text]. *)
Lemma license_score_text a b :
  license_text a = license_text b -> license_score a = license_score b.
Proof.
  intros Htext.
  unfold license_score, calculate_license_score, try_except, try_body.
  cbv zeta. fold (license_text a). fold (license_text b). rewrite Htext.
  unfold when, informational, pbind, pure.
  change (1 <=? 0)%Z with false. cbv iota.
  reflexivity.
Qed.

End LicenseScoreFacts.

Section LicenseMore.

Import LicenseScore.

Context {Sink : Type}.
Variable put : log_entry -> Sink -> option exn * Sink.

(** X8: a score that [calculate_license_score] returns is one of the nine
    values 1.0, 0.9, 0.8, 0.7, 0.6, 0.5, 0.3, 0.2 and 0.0, whatever the
    log sink does: it is the score of the license, or the fallback 0.5. *)
Theorem calculate_license_score_values
    pid start_time end_time license_info verbosity q score time_taken q' :
  calculate_license_score put pid start_time end_time license_info verbosity q
    = (Ok (score, time_taken), q') ->
  In score score_values /\
  (score = license_score license_info \/ score = 0.5%Q).
Proof.
  intros Hrun.
  pose proof (license_score_or_fallback put pid license_info verbosity
                _ _ _ _ _ _ Hrun) as Hcases.
  split; [|exact Hcases].
  destruct Hcases as [-> | ->]; [apply license_score_values|].
  vm_compute. auto 12.
Qed.

(** X9: a silent call ([verbosity < 1]) never calls [put]: it returns with
    the log sink as it was, whatever the sink is. *)
Theorem calculate_license_score_silent
    pid start_time end_time license_info verbosity q :
  (verbosity < 1)%Z ->
  calculate_license_score put pid start_time end_time license_info verbosity q
  = (Ok (license_score license_info, end_time - start_time), q)%Q.
Proof.
  intros Hquiet. unfold calculate_license_score.
  destruct (try_body_score put pid license_info verbosity) as (message & -> & _).
  unfold try_except, tier, when, informational, pbind, pure.
  destruct (Z.leb_spec 1 verbosity); [lia|]. reflexivity.
Qed.

(** X10: logging does not change the result: when no [put] raises, the
    score is the one of the silent call and the latency is the difference of
    the clock readings, for every verbosity, process id and log sink. *)
Theorem calculate_license_score_logging_independent
    pid start_time end_time license_info verbosity q :
  never_raises put ->
  exists q',
    calculate_license_score put pid start_time end_time license_info verbosity q
    = (Ok (license_score license_info, end_time - start_time), q')%Q.
Proof.
  intros Hsafe. apply license_score_returned. right. exact Hsafe.
Qed.

(** X11: the score does not depend on the case of the letters of the
    license. *)
Theorem calculate_license_score_case_insensitive
    pid start_time end_time s verbosity q :
  logging_safe put verbosity ->
  exists score q1 q2,
    calculate_license_score put pid start_time end_time (Some s) verbosity q
      = (Ok (score, end_time - start_time), q1)%Q /\
    calculate_license_score put pid start_time end_time
      (Some (PyStr.lower s)) verbosity q
      = (Ok (score, end_time - start_time), q2)%Q.
Proof.
  intros Hsafe.
  destruct (license_score_returned put pid (Some s) verbosity
              start_time end_time q Hsafe) as [q1 H1].
  destruct (license_score_returned put pid (Some (PyStr.lower s)) verbosity
              start_time end_time q Hsafe) as [q2 H2].
  exists (license_score (Some s)), q1, q2. split; [exact H1|].
  rewrite H2, (license_score_text _ _ (license_text_lower s)). reflexivity.
Qed.

(** X12: a license that is [None] or the empty string is scored 0.5. *)
Theorem calculate_license_score_missing
    pid start_time end_time license_info verbosity q :
  truthy license_info = false ->
  logging_safe put verbosity ->
  exists q',
    calculate_license_score put pid start_time end_time license_info verbosity q
    = (Ok (0.5, end_time - start_time), q')%Q.
Proof.
  intros Hfalsy Hsafe.
  destruct (license_score_returned put pid license_info verbosity
              start_time end_time q Hsafe) as [q' Hrun].
  exists q'. rewrite Hrun.
  assert (Hs : license_score license_info = 0.5%Q).
  { rewrite (license_score_text license_info None); [reflexivity|].
    unfold license_text. rewrite Hfalsy. reflexivity. }
  rewrite Hs. reflexivity.
Qed.

(** X13: the arm for ["lgpl-3.0"] and ["lgplv3"] (score 0.6) is never
    reached through these two names: a license text that contains one of
    them contains ["lgpl"], which an earlier arm scores 0.7, so the score is
    0.7 or the score of a still earlier arm. *)
Theorem calculate_license_score_lgpl3
    pid start_time end_time license_info verbosity q :
  PyStr.contains "lgpl-3.0" (license_text license_info) = true \/
  PyStr.contains "lgplv3" (license_text license_info) = true ->
  logging_safe put verbosity ->
  exists score q',
    calculate_license_score put pid start_time end_time license_info verbosity q
    = (Ok (score, end_time - start_time), q')%Q /\
    In score [1.0; 0.9; 0.8; 0.7]%Q.
Proof.
  intros Hlgpl Hsafe.
  destruct (license_score_returned put pid license_info verbosity
              start_time end_time q Hsafe) as [q' Hrun].
  exists (license_score license_info), q'. split; [exact Hrun|].
  destruct (try_body_score silent_put 0 license_info 0) as (_ & _ & _ & Hin).
  apply Hin. unfold any_in. cbn [existsb].
  assert (Hc : PyStr.contains "lgpl" (license_text license_info) = true).
  { destruct Hlgpl as [Hc|Hc];
      [apply (contains_prefix "lgpl" "lgpl-3.0") | apply (contains_prefix "lgpl" "lgplv3")];
      (reflexivity || exact Hc). }
  rewrite Hc. reflexivity.
Qed.

End LicenseMore.

(** X14: with a queue that takes every entry and [verbosity >= 1], a call
    appends exactly four entries to the queue, in this order: the start, the
    license found or not, the message of the arm, the end with the score and
    the latency. *)
Theorem calculate_license_score_log_trace
    pid start_time end_time license_info verbosity q :
  (1 <= verbosity)%Z ->
  exists message,
    LicenseScore.calculate_license_score LicenseScore.queue_put
      pid start_time end_time license_info verbosity q
    = (Ok (license_score license_info, end_time - start_time),
       q ++ log_trace pid license_info message (end_time - start_time))%Q%list.
Proof.
  intros Hverbose. unfold LicenseScore.calculate_license_score.
  destruct (try_body_score LicenseScore.queue_put pid license_info verbosity)
    as (message & -> & _).
  exists message.
  unfold LicenseScore.try_except, LicenseScore.tier, LicenseScore.when,
    LicenseScore.informational, LicenseScore.pbind, LicenseScore.pure,
    LicenseScore.log_queue_put, LicenseScore.queue_put, log_trace.
  destruct (Z.leb_spec 1 verbosity); [|lia].
  rewrite <- !app_assoc. reflexivity.
Qed.

Lemma calculate_license_score_values_witness :
  LicenseScore.calculate_license_score (LicenseScore.flaky_put 1) 7 (10 # 1) (12 # 1)
    (Some "apache-2.0") 1 0%nat
  = (Ok (0.5, (12 # 1) - (10 # 1)), 4%nat)%Q /\
  In 0.5%Q score_values /\
  (0.5%Q = license_score (Some "apache-2.0") \/ 0.5%Q = 0.5%Q).
Proof.
  split; [reflexivity|].
  apply (calculate_license_score_values (LicenseScore.flaky_put 1) 7 (10 # 1) (12 # 1)
           (Some "apache-2.0") 1 0%nat 0.5%Q ((12 # 1) - (10 # 1))%Q 4%nat).
  reflexivity.
Defined.

Lemma calculate_license_score_silent_witness :
  (0 < 1)%Z /\
  LicenseScore.calculate_license_score LicenseScore.mp_put 7 (10 # 1) (12 # 1)
    (Some "GPL-3.0") 0 (LicenseScore.mkQueue true [])
  = (Ok (license_score (Some "GPL-3.0"), (12 # 1) - (10 # 1)),
     LicenseScore.mkQueue true [])%Q.
Proof.
  split; [lia|].
  apply (calculate_license_score_silent LicenseScore.mp_put 7 (10 # 1) (12 # 1)
           (Some "GPL-3.0") 0 (LicenseScore.mkQueue true [])).
  lia.
Defined.

Lemma calculate_license_score_logging_independent_witness :
  never_raises LicenseScore.queue_put /\
  exists q',
    LicenseScore.calculate_license_score LicenseScore.queue_put 7 (10 # 1) (12 # 1)
      (Some "bigscience-openrail-m") 2 []
    = (Ok (license_score (Some "bigscience-openrail-m"), (12 # 1) - (10 # 1)), q')%Q.
Proof.
  assert (Hsafe : never_raises LicenseScore.queue_put)
    by (intros entry q; reflexivity).
  split; [exact Hsafe|].
  apply (calculate_license_score_logging_independent LicenseScore.queue_put
           7 (10 # 1) (12 # 1) (Some "bigscience-openrail-m") 2 [] Hsafe).
Defined.

Lemma calculate_license_score_case_insensitive_witness :
  logging_safe LicenseScore.queue_put 1 /\
  exists score q1 q2,
    LicenseScore.calculate_license_score LicenseScore.queue_put 7 (10 # 1) (12 # 1)
      (Some "Apache-2.0") 1 []
      = (Ok (score, (12 # 1) - (10 # 1)), q1)%Q /\
    LicenseScore.calculate_license_score LicenseScore.queue_put 7 (10 # 1) (12 # 1)
      (Some (PyStr.lower "Apache-2.0")) 1 []
      = (Ok (score, (12 # 1) - (10 # 1)), q2)%Q.
Proof.
  assert (Hsafe : logging_safe LicenseScore.queue_put 1)
    by (right; intros entry q; reflexivity).
  split; [exact Hsafe|].
  apply (calculate_license_score_case_insensitive LicenseScore.queue_put
           7 (10 # 1) (12 # 1) "Apache-2.0" 1 [] Hsafe).
Defined.

Lemma calculate_license_score_missing_witness :
  LicenseScore.truthy (Some "") = false /\
  logging_safe LicenseScore.queue_put 1 /\
  exists q',
    LicenseScore.calculate_license_score LicenseScore.queue_put 7 (10 # 1) (12 # 1)
      (Some "") 1 []
    = (Ok (0.5, (12 # 1) - (10 # 1)), q')%Q.
Proof.
  assert (Hsafe : logging_safe LicenseScore.queue_put 1)
    by (right; intros entry q; reflexivity).
  split; [reflexivity|]. split; [exact Hsafe|].
  apply (calculate_license_score_missing LicenseScore.queue_put
           7 (10 # 1) (12 # 1) (Some "") 1 [] eq_refl Hsafe).
Defined.

Lemma calculate_license_score_lgpl3_witness :
  PyStr.contains "lgpl-3.0" (license_text (Some "LGPL-3.0-only")) = true /\
  logging_safe LicenseScore.queue_put 0 /\
  exists score q',
    LicenseScore.calculate_license_score LicenseScore.queue_put 7 (10 # 1) (12 # 1)
      (Some "LGPL-3.0-only") 0 []
    = (Ok (score, (12 # 1) - (10 # 1)), q')%Q /\
    In score [1.0; 0.9; 0.8; 0.7]%Q.
Proof.
  assert (Hc : PyStr.contains "lgpl-3.0" (license_text (Some "LGPL-3.0-only")) = true)
    by (vm_compute; reflexivity).
  assert (Hsafe : logging_safe LicenseScore.queue_put 0) by (left; lia).
  split; [exact Hc|]. split; [exact Hsafe|].
  apply (calculate_license_score_lgpl3 LicenseScore.queue_put
           7 (10 # 1) (12 # 1) (Some "LGPL-3.0-only") 0 [] (or_introl Hc) Hsafe).
Defined.

Lemma calculate_license_score_log_trace_witness :
  (1 <= 2)%Z /\
  exists message,
    LicenseScore.calculate_license_score LicenseScore.queue_put
      7 (10 # 1) (12 # 1) None 2 []
    = (Ok (license_score None, (12 # 1) - (10 # 1)),
       [] ++ log_trace 7 None message ((12 # 1) - (10 # 1)))%Q%list.
Proof.
  split; [lia|].
  apply (calculate_license_score_log_trace 7 (10 # 1) (12 # 1) None 2 []).
  lia.
Defined.

(** * Properties of [get_model_metrics.py] *)

Section ModelLicense.

Import get_model_metrics.

Lemma prefix_skip p : forall s,
  String.prefix p s = true -> s = p ++ skip (String.length p) s.
Proof.
  induction p as [|a p IH]; intros s Hp; [reflexivity|].
  destruct s as [|b s]; [discriminate|]. simpl in Hp.
  destruct (ascii_dec a b) as [->|]; [|discriminate].
  rewrite append_String. cbn [String.length skip]. f_equal. apply IH, Hp.
Qed.

Lemma after_first_prefix p s :
  String.prefix p s = true -> after_first p s = Some (skip (String.length p) s).
Proof.
  intros Hp.
  assert (Hunfold : after_first p s
                    = if String.prefix p s then Some (skip (String.length p) s)
                      else match s with
                           | EmptyString => None
                           | String _ s' => after_first p s'
                           end) by (destruct s; reflexivity).
  rewrite Hunfold, Hp. reflexivity.
Qed.

Lemma first_license_spec tags :
  (first_license tags = "" /\ Forall not_license_tag tags) \/
  exists pre post,
    tags = (pre ++ TagStr ("license:" ++ first_license tags) :: post)%list /\
    Forall not_license_tag pre.
Proof.
  induction tags as [|t rest IH].
  - left. split; [reflexivity | constructor].
  - assert (Hskip : not_license_tag t -> first_license (t :: rest) = first_license rest).
    { destruct t as [s|]; simpl; [|reflexivity]. intros ->. reflexivity. }
    destruct t as [s|].
    + destruct (String.prefix "license:" s) eqn:Hp.
      * right. exists [], rest. split; [|constructor].
        assert (E : first_license (TagStr s :: rest)
                    = skip (String.length "license:") s).
        { cbn [first_license]. rewrite Hp. unfold split1_last.
          rewrite (after_first_prefix _ _ Hp). reflexivity. }
        rewrite E, <- (prefix_skip "license:" s Hp). reflexivity.
      * rewrite (Hskip Hp).
        destruct IH as [[Hr Hall] | (pre & post & Htags & Hall)].
        -- left. split; [exact Hr | constructor; [exact Hp | exact Hall]].
        -- right. exists (TagStr s :: pre), post.
           split; [simpl; f_equal; exact Htags | constructor; [exact Hp | exact Hall]].
    + rewrite (Hskip I).
      destruct IH as [[Hr Hall] | (pre & post & Htags & Hall)].
      * left. split; [exact Hr | constructor; [exact I | exact Hall]].
      * right. exists (TagOther :: pre), post.
        split; [simpl; f_equal; exact Htags | constructor; [exact I | exact Hall]].
Qed.

Context {W : Type} `{HuggingFaceApi W}.

(** X15: what [get_model_license] returns is read off the first tag that is
    a string starting with ["license:"]: the tag is ["license:"] followed by
    the result, and no tag before it is a license tag; when there is no such
    tag the result is the empty string.  An exception of the API is passed
    on. *)
Theorem get_model_license_first_tag namespace repo rev w :
  match get_model_info_tags namespace repo rev w with
  | (Ok tags, w') =>
      exists license,
        get_model_license namespace repo rev w = (Ok license, w') /\
        ((license = "" /\ Forall not_license_tag tags) \/
         exists pre post,
           tags = (pre ++ TagStr ("license:" ++ license) :: post)%list /\
           Forall not_license_tag pre)
  | (Raise e, w') => get_model_license namespace repo rev w = (Raise e, w')
  end.
Proof.
  unfold get_model_license, Action.bind, Action.ret.
  destruct (get_model_info_tags namespace repo rev w) as [[tags|e] w'];
    [|reflexivity].
  exists (first_license tags). split; [reflexivity|].
  apply first_license_spec.
Qed.

End ModelLicense.

(** * Properties of the loop of [run.py] *)

Section MainLoop.

Import run.

Context {W Registry Scores : Type}.
Context `{Collaborators W Registry Scores}.

Variable verbose : bool.
Variable log_level : Z.
Variable log_file_path : string.

Lemma bind_ext {A B : Type} (m1 m2 : action W A) (k1 k2 : A -> action W B) w :
  m1 w = m2 w -> (forall a w', k1 a w' = k2 a w') ->
  Action.bind m1 k1 w = Action.bind m2 k2 w.
Proof.
  intros Hm Hk. unfold Action.bind. rewrite Hm.
  destruct (m2 w) as [[a|e] w']; [apply Hk | reflexivity].
Qed.

(** X16: the API is never asked for an empty revision: two APIs that answer
    alike for every non-empty revision give the same run, whatever the
    groups are (an empty revision of a model is replaced by ["main"]). *)
Theorem for_groups_revision_not_empty
    (api1 api2 : get_model_metrics.HuggingFaceApi W) x groups :
  (forall ns repo rev w, rev <> "" ->
     @get_model_metrics.get_model_files_info _ api1 ns repo rev w
     = @get_model_metrics.get_model_files_info _ api2 ns repo rev w) ->
  (forall ns repo rev kind name w, rev <> "" ->
     @get_model_metrics.download_file _ api1 ns repo rev kind name w
     = @get_model_metrics.download_file _ api2 ns repo rev kind name w) ->
  (forall ns repo rev w, rev <> "" ->
     @get_model_metrics.get_model_info_tags _ api1 ns repo rev w
     = @get_model_metrics.get_model_info_tags _ api2 ns repo rev w) ->
  forall w,
    @for_groups _ _ _ api1 _ verbose log_level log_file_path x groups w
    = @for_groups _ _ _ api2 _ verbose log_level log_file_path x groups w.
Proof.
  intros Hfiles Hdown Htags.
  induction groups as [|i rest IH]; intros w; [reflexivity|].
  cbn [for_groups]. apply bind_ext; [|intros _ w'; apply IH].
  unfold evaluate_group. destruct (model i) as [m|]; [|reflexivity].
  set (rev := if PyStr.nonempty (Model.rev m) then Model.rev m else "main").
  assert (Hrev : rev <> "").
  { unfold rev. destruct (PyStr.nonempty (Model.rev m)) eqn:E.
    - apply nonempty_true, E.
    - discriminate. }
  apply bind_ext.
  { unfold get_model_metrics.get_model_size. apply bind_ext; [|reflexivity].
    apply Hfiles, Hrev. }
  intros size w1. apply bind_ext.
  { unfold get_model_metrics.get_model_README. apply bind_ext; [|reflexivity].
    apply Hdown, Hrev. }
  intros filename w2. apply bind_ext; [|reflexivity].
  unfold get_model_metrics.get_model_license. apply bind_ext; [|reflexivity].
  apply Htags, Hrev.
Qed.

Context `{get_model_metrics.HuggingFaceApi W}.

(** X17: groups without a model are skipped: when no group has a model and
    the run is not verbose, the loop returns and leaves the world as it was
    (no download, no metric, no output). *)
Theorem for_groups_no_model x groups w :
  verbose = false ->
  Forall (fun i => model i = None) groups ->
  for_groups verbose log_level log_file_path x groups w = (Ok tt, w).
Proof.
  intros Hquiet Hall. induction Hall as [|i rest Hi _ IH]; [reflexivity|].
  cbn [for_groups]. unfold Action.bind, evaluate_group.
  rewrite Hi. rewrite Hquiet in IH |- *. exact IH.
Qed.

(** X18: an exception raised for one group ends the loop: the groups after
    it are not evaluated and the exception is passed on. *)
Theorem for_groups_first_failure x pre i post w w1 e w2 :
  for_groups verbose log_level log_file_path x pre w = (Ok tt, w1) ->
  evaluate_group verbose log_level log_file_path x i w1 = (Raise e, w2) ->
  for_groups verbose log_level log_file_path x (pre ++ i :: post) w = (Raise e, w2).
Proof.
  revert w. induction pre as [|g pre IH]; intros w Hpre Hi.
  - injection Hpre as <-. cbn [app for_groups]. unfold Action.bind.
    rewrite Hi. reflexivity.
  - cbn [app for_groups] in Hpre |- *. unfold Action.bind in Hpre |- *.
    destruct (evaluate_group verbose log_level log_file_path x g w)
      as [[[]|e0] w0]; [|discriminate].
    apply IH; assumption.
Qed.

(** X19: a manifest with a line that has a rejected model or dataset link,
    or more than three fields, stops the run before anything else happens:
    [run_url_file] raises and leaves the world as it was (no registry is
    loaded, nothing is downloaded, no metric runs, nothing is output). *)
Theorem run_url_file_manifest_error `{UrlLib} fs target bytes line w :
  fs target = Some bytes ->
  line ∈ file_lines bytes ->
  malformed_model_link line \/ malformed_dataset_link line \/
  3 <= count_char "," line ->
  exists e,
    run_url_file verbose log_level log_file_path fs target w = (Raise e, w).
Proof.
  intros Hfs Hin Hbad.
  assert (Hline : raises (process_line line)).
  { destruct Hbad as [Hm | [Hd | Hc]].
    - apply malformed_link_raises. left. exact Hm.
    - apply malformed_link_raises. right. exact Hd.
    - apply too_many_fields_raises, Hc. }
  assert (Hparse : raises (parse_project_file fs target)).
  { unfold parse_project_file. rewrite Hfs.
    destruct (decode_ascii bytes) as [text|e] eqn:Hdec; simpl;
      [|eexists; reflexivity].
    apply decode_ascii_inv in Hdec as ->.
    apply (for_lines_raises _ _ line Hin Hline). }
  destruct Hparse as [e He]. exists e.
  unfold run_url_file. rewrite He. reflexivity.
Qed.

End MainLoop.

Lemma run_url_file_manifest_error_witness :
  exists e,
    @run.run_url_file _ _ _ recording_api recording_collaborators
      false 1 "run.log" lenient_urllib
      (single_file "urls.txt" manifest_bad_link) "urls.txt" []
    = (Raise e, []).
Proof.
  apply (@run_url_file_manifest_error _ _ _ recording_collaborators
           false 1 "run.log" recording_api lenient_urllib
           (single_file "urls.txt" manifest_bad_link) "urls.txt"
           manifest_bad_link (",,https://host/onlyonesegment" ++ nl) []).
  - reflexivity.
  - apply list_elem_of_In. vm_compute. right. left. reflexivity.
  - left. exists "https://host/onlyonesegment".
    split; [reflexivity|]. split; [discriminate|]. eexists; reflexivity.
Defined.

Lemma for_groups_revision_not_empty_witness :
  @run.for_groups _ _ _ recording_api recording_collaborators false 1 "run.log" tt
    [group_empty_rev] []
  = @run.for_groups _ _ _ strict_api recording_collaborators false 1 "run.log" tt
      [group_empty_rev] [].
Proof.
  apply (@for_groups_revision_not_empty _ _ _ recording_collaborators
           false 1 "run.log" recording_api strict_api tt [group_empty_rev]).
  - intros ns repo rev w Hrev. simpl.
    apply nonempty_true in Hrev. rewrite Hrev. reflexivity.
  - intros ns repo rev kind name w Hrev. simpl.
    apply nonempty_true in Hrev. rewrite Hrev. reflexivity.
  - intros ns repo rev w Hrev. simpl.
    apply nonempty_true in Hrev. rewrite Hrev. reflexivity.
Defined.

Lemma for_groups_no_model_witness :
  @run.for_groups _ _ _ failing_api recording_collaborators false 1 "run.log" tt
    [group_no_model; group_no_model] []
  = (Ok tt, []).
Proof.
  apply (@for_groups_no_model _ _ _ recording_collaborators false 1 "run.log"
           failing_api tt [group_no_model; group_no_model] [] eq_refl).
  repeat constructor.
Defined.

Lemma for_groups_first_failure_witness :
  @run.for_groups _ _ _ failing_api recording_collaborators false 1 "run.log" tt
    ([group_no_model] ++ group_gpt2 :: [group_gpt2]) []
  = (Raise (ValueError "offline"), []).
Proof.
  apply (@for_groups_first_failure _ _ _ recording_collaborators false 1 "run.log"
           failing_api tt [group_no_model] group_gpt2 [group_gpt2] [] []
           (ValueError "offline") []).
  - reflexivity.
  - reflexivity.
Defined.

(** * Properties of [llm_child_api.py] *)

Section ChatCompletion.

Import llm_child_api.

Lemma extract_content_has_content data text :
  has_content data text -> extract_content data = text.
Proof.
  intros (fields & choice & rest & message & -> & Hc & Hm & Ht).
  simpl. rewrite Hc, Hm, Ht. reflexivity.
Qed.

Lemma extract_content_inv data :
  has_content data (extract_content data) \/
  (extract_content data = "" /\ forall text, ~ has_content data text).
Proof.
  destruct data as [| | | |items|fields];
    try (right; split; [reflexivity|];
         intros text (? & ? & ? & ? & Hd & _); discriminate Hd).
  simpl.
  destruct (dict_get "choices" fields) as [[| | | |[|[| | | | |choice] rest]|]|] eqn:Hc;
    try (right; split; [reflexivity|];
         intros text (f & c & r & m & Hd & Hc' & _);
         injection Hd as <-; rewrite Hc in Hc'; discriminate Hc').
  destruct (dict_get "message" choice) as [[| | | | |message]|] eqn:Hm;
    try (right; split; [reflexivity|];
         intros text (f & c & r & m & Hd & Hc' & Hm' & _);
         injection Hd as <-; rewrite Hc in Hc'; injection Hc' as <- <-;
         rewrite Hm in Hm'; discriminate Hm').
  destruct (dict_get "content" message) as [[| | |text| |]|] eqn:Ht;
    try (right; split; [reflexivity|];
         intros text' (f & c & r & m & Hd & Hc' & Hm' & Ht');
         injection Hd as <-; rewrite Hc in Hc'; injection Hc' as <- <-;
         rewrite Hm in Hm'; injection Hm' as <-;
         rewrite Ht in Ht'; discriminate Ht').
  left. exists fields, choice, rest, message. repeat split; assumption.
Qed.

Context {W : Type} `{Api W} `{JsonLib}.

(** X20: [get_chat_completion] never lets an exception of class
    [Exception] out: whatever the endpoint and the decoder do, it returns a
    string, or passes on an exception that is not an [Exception]. *)
Theorem get_chat_completion_contains_errors self content w :
  exists w',
    (exists text, get_chat_completion self content w = (Ok text, w')) \/
    (exists e, get_chat_completion self content w = (Raise e, w') /\
               is_Exception e = false).
Proof.
  unfold get_chat_completion, Action.try_except, Action.bind, Action.ret,
    Action.raise.
  destruct (post _ _ _ w) as [[response|e] w'] eqn:Hpost.
  - exists w'.
    destruct response as [| | |s| |]; try (left; eexists; reflexivity).
    destruct (loads s) as [decoded|e]; [left; eexists; reflexivity|].
    destruct (is_Exception e) eqn:He; [left; eexists; reflexivity|].
    rewrite He. right. exists e. split; [reflexivity | exact He].
  - exists w'. destruct (is_Exception e) eqn:He.
    + left. eexists; reflexivity.
    + right. exists e. split; [reflexivity | exact He].
Qed.

(** X21: when the endpoint answers, the text returned is the string at
    [["choices"][0]["message"]["content"]] of the response (decoded first
    when the response is a [str]); when the response has no string there,
    the text returned is empty. *)
Theorem get_chat_completion_content self content w response w' data :
  post (base_url self) CHAT_ENDPOINT
    (JObject [("model", JString (model self));
              ("messages",
               JArray [JObject [("role", JString "user");
                                ("content", JString content)]]);
              ("stream", JBool false)]) w = (Ok response, w') ->
  decodes_to response data ->
  exists text,
    get_chat_completion self content w = (Ok text, w') /\
    (has_content data text \/
     (text = "" /\ forall t, ~ has_content data t)).
Proof.
  intros Hpost Hdec.
  unfold get_chat_completion, Action.try_except, Action.bind, Action.ret.
  rewrite Hpost.
  exists (extract_content data). split; [|apply extract_content_inv].
  destruct response; simpl in Hdec; try (subst data; reflexivity).
  rewrite Hdec. reflexivity.
Qed.

End ChatCompletion.

Lemma get_chat_completion_content_witness :
  @decodes_to demo_loads (JString "{...}") chat_reply /\
  has_content chat_reply "Hello" /\
  @llm_child_api.get_chat_completion unit demo_post demo_loads
    (llm_child_api.mkGenAiChatApi "https://genai.rcac.purdue.edu" "llama3.1:latest")
    "Hi" tt
  = (Ok "Hello", tt).
Proof.
  assert (Hdec : @decodes_to demo_loads (JString "{...}") chat_reply)
    by reflexivity.
  assert (Hc : has_content chat_reply "Hello").
  { eexists _, _, _, _. repeat split; reflexivity. }
  split; [exact Hdec|]. split; [exact Hc|].
  destruct (@get_chat_completion_content unit demo_post demo_loads
              (llm_child_api.mkGenAiChatApi "https://genai.rcac.purdue.edu"
                 "llama3.1:latest")
              "Hi" tt (JString "{...}") tt chat_reply eq_refl Hdec)
    as (text & Hrun & _).
  rewrite Hrun. vm_compute in Hrun. injection Hrun as <-. reflexivity.
Defined.
